(** * The AutoTrader decision core of [autotrader.cc]

    A shallow embedding of the callback handlers of [AutoTrader] and of the
    signal evaluation [deterMineOrderStatus], followed by the properties of
    the design document that concern them.

    Conventions of the embedding:
    - [unsigned long] is a [Z] in [[0, 2^64)], every operation followed by its
      reduction modulo [2^64]; [unsigned int] likewise modulo [2^32]; [long]
      is a [Z] in [[-2^63, 2^63)].
    - [double] is IEEE binary64, through the executable [SpecFloat] model.
    - An evaluation the language leaves undefined (division by zero, an
      index outside a container, a floating value that does not fit the
      integer it is converted to, signed overflow) returns [Fault].
    - A [std::queue], which the source also indexes and extends with
      [push_back], is the list of its elements, front first; an
      [std::unordered_set<unsigned long>] is a [gset Z]. *)

From Stdlib Require Import ZArith List Bool Lia.
From Stdlib Require Import SpecFloat.
From stdpp Require Import base gmap sets list.

Local Open Scope Z_scope.

(** ** Outcomes of an evaluation *)

Inductive fault : Type :=
| DivisionByZero
| IndexOutOfRange
| FloatToIntegerOverflow
| SignedOverflow.

Inductive res (A : Type) : Type :=
| Ok (a : A)
| Fault (why : fault).

Arguments Ok {A} a.
Arguments Fault {A} why.

Definition res_bind {A B : Type} (r : res A) (k : A -> res B) : res B :=
  match r with
  | Ok a => k a
  | Fault why => Fault why
  end.

Notation "'let*' x ':=' r 'in' k" := (res_bind r (fun x => k))
  (at level 10, x pattern, r at level 100, k at level 200).

(** ** Machine integers *)

Module UInt64.
Definition modulus : Z := 2 ^ 64.
Definition wrap (z : Z) : Z := z mod modulus.
Definition add (a b : Z) : Z := wrap (a + b).
Definition sub (a b : Z) : Z := wrap (a - b).
Definition mul (a b : Z) : Z := wrap (a * b).
(** [a / b] on [unsigned long]; undefined for a zero divisor. *)
Definition div (a b : Z) : res Z :=
  if b =? 0 then Fault DivisionByZero else Ok (a / b).
Definition in_range (z : Z) : Prop := 0 <= z < modulus.
End UInt64.

Module UInt32.
Definition modulus : Z := 2 ^ 32.
Definition wrap (z : Z) : Z := z mod modulus.
End UInt32.

Module Int64.
Definition min_signed : Z := - 2 ^ 63.
Definition max_signed : Z := 2 ^ 63 - 1.
(** The value of an [unsigned long] read as a [long] (the cast [(long)v]). *)
Definition of_unsigned (z : Z) : Z :=
  if z <? 2 ^ 63 then z else z - 2 ^ 64.
(** A [long] converted to [unsigned long] (the usual arithmetic conversion
    when one operand is [unsigned long]). *)
Definition to_unsigned (z : Z) : Z := UInt64.wrap z.
Definition in_range (z : Z) : Prop := min_signed <= z <= max_signed.
Definition checked (z : Z) : res Z :=
  if (min_signed <=? z) && (z <=? max_signed) then Ok z
  else Fault SignedOverflow.
End Int64.

(** ** Binary64 arithmetic, as far as the source uses it *)

Module Double.
Definition prec : Z := 53.
Definition emax : Z := 1024.

(** [(double)u] for an [unsigned long] [u]: round to nearest, ties to even. *)
Definition of_ulong (u : Z) : spec_float := binary_normalize prec emax u 0 false.

Definition add : spec_float -> spec_float -> spec_float := SFadd prec emax.
Definition mul : spec_float -> spec_float -> spec_float := SFmul prec emax.

Definition one : spec_float := of_ulong 1.

(** [std::pow(x, y)] for the two exponents the source passes.  With
    [y = 2] the result is the square of [x] rounded once; with [y = 0] it
    is [1.0] whatever [x] is, as the C standard requires of [pow]. *)
Definition pow (x : spec_float) (y : Z) : spec_float :=
  if y =? 0 then one
  else if y =? 2 then mul x x
  else S754_nan.

(** [(unsigned long)x]: the fractional part is discarded; undefined when
    the truncated value is not an [unsigned long]. *)
Definition to_ulong (x : spec_float) : res Z :=
  match x with
  | S754_zero _ => Ok 0
  | S754_finite s m e =>
      let mag := if 0 <=? e then Z.pos m * 2 ^ e else Z.pos m / 2 ^ (- e) in
      if s then (if mag =? 0 then Ok 0 else Fault FloatToIntegerOverflow)
      else if mag <? UInt64.modulus then Ok mag
      else Fault FloatToIntegerOverflow
  | S754_infinity _ | S754_nan => Fault FloatToIntegerOverflow
  end.
End Double.

(** ** Containers *)

(** [q.size()], a [size_t]. *)
Definition size (q : list Z) : Z := Z.of_nat (length q).

(** [q[i]] on a queue of [unsigned long] with an unsigned index; reading
    past the end is undefined. *)
Definition at_index (q : list Z) (i : Z) : res Z :=
  if (0 <=? i) && (i <? size q) then
    match nth_error q (Z.to_nat i) with
    | Some x => Ok x
    | None => Fault IndexOutOfRange
    end
  else Fault IndexOutOfRange.

(** ** Signal evaluation: [AutoTrader::deterMineOrderStatus] *)

(** The two flags the evaluation assigns, [ETF_Much_Greater] and
    [FTR_Much_Greater]. *)
Record verdict : Type := Verdict {
  v_ETF_Much_Greater : bool;
  v_FTR_Much_Greater : bool
}.

Definition ETF_RICH : verdict := Verdict true false.
Definition FUTURE_RICH : verdict := Verdict false true.
Definition NEUTRAL : verdict := Verdict false false.

(** The loops [for (int i = 1; i < q.size(); i++)] visit the entries at
    indexes [1 .. size-1], that is, every entry but the front one.  The
    counter is an [int]: its increment overflows once [2^31 - 1] is a valid
    index. *)
Definition loop_entries (q : list Z) : res (list Z) :=
  if 2 ^ 31 <=? size q then Fault SignedOverflow else Ok (tl q).

(** [avgDif += q[i]] over the loop. *)
Definition sum_entries (xs : list Z) : Z :=
  fold_left (fun acc x => UInt64.add acc x) xs 0.

(** [stdDevDif += std::pow(avgDif - q[i], 2)]: the difference is taken on
    [unsigned long], converted to [double] and squared; the accumulator is
    converted to [double], added to, and converted back. *)
Definition accumulate_square (avgDif : Z) (acc : Z) (x : Z) : res Z :=
  let d := Double.pow (Double.of_ulong (UInt64.sub avgDif x)) 2 in
  Double.to_ulong (Double.add (Double.of_ulong acc) d).

Fixpoint sum_squares (avgDif : Z) (xs : list Z) (acc : Z) : res Z :=
  match xs with
  | [] => Ok acc
  | x :: xs' =>
      let* acc' := accumulate_square avgDif acc x in
      sum_squares avgDif xs' acc'
  end.

(** The exponent written [1/2] in the source: a quotient of two [int]s. *)
Definition exponent_half : Z := 1 / 2.

(** The comparison chain at the end of the evaluation. *)
Definition classify (newest avgDif stdDevDif : Z) : verdict :=
  if UInt64.add avgDif (UInt64.mul 1 stdDevDif) <? newest then ETF_RICH
  else if newest <? UInt64.sub avgDif (UInt64.mul 1 stdDevDif) then FUTURE_RICH
  else NEUTRAL.

(** The mean and deviation of the evaluation.  [divisor_size] is the size the
    two divisions read; the source spells that container
    [DIFF_recent_mp_price], one letter short of the parameter. *)
Definition spread_mean_with (divisor_size : Z) (q : list Z) : res Z :=
  let* entries := loop_entries q in
  UInt64.div (sum_entries entries) (UInt64.sub divisor_size 1).

Definition spread_stddev_with (divisor_size : Z) (q : list Z) (avgDif : Z) : res Z :=
  let* entries := loop_entries q in
  let* squares := sum_squares avgDif entries 0 in
  let* quotient := UInt64.div squares (UInt64.sub divisor_size 1) in
  Double.to_ulong (Double.pow (Double.of_ulong quotient) exponent_half).

Definition deterMineOrderStatus_with (divisor_size : Z) (q : list Z) : res verdict :=
  let last := UInt32.wrap (UInt64.sub (size q) 1) in
  let* avgDif := spread_mean_with divisor_size q in
  let* stdDevDif := spread_stddev_with divisor_size q avgDif in
  let* newest := at_index q last in
  Ok (classify newest avgDif stdDevDif).

(** The evaluation as the handlers use it: the divisor is the size of the
    history passed in. *)
Definition spread_mean (q : list Z) : res Z := spread_mean_with (size q) q.
Definition spread_stddev (q : list Z) (avgDif : Z) : res Z :=
  spread_stddev_with (size q) q avgDif.
Definition deterMineOrderStatus (q : list Z) : res verdict :=
  deterMineOrderStatus_with (size q) q.


(** ** The trader's state

    The members of [AutoTrader] are declared in [autotrader.h]; their types
    are read off their uses in [autotrader.cc]: prices, midprices, window
    entries and identifiers are [unsigned long] (they are assigned from and
    passed as [unsigned long]), the position counters are [long] (a fill adds
    [(long)volume]), the tracked identifiers are sets.  The members are
    grouped by role; their names are the source's. *)

Inductive Instrument : Type := FUTURE | ETF.
Inductive Side : Type := SELL | BUY.
Inductive Lifespan : Type := FILL_AND_KILL | GOOD_FOR_DAY.

(** A [std::array<unsigned long, TOP_LEVEL_COUNT>]: the top of the book and
    the levels behind it. *)
Record levels : Type := Levels { top : Z; deeper : list Z }.

(** What the trader hands to the gateway. *)
Inductive order : Type :=
| SendInsertOrder (id : Z) (side : Side) (price volume : Z) (lifespan : Lifespan)
| SendHedgeOrder (id : Z) (side : Side) (price volume : Z) (lifespan : option Lifespan).

Definition LOT_SIZE : Z := 10.
Definition POSITION_LIMIT : Z := 100.
Definition TICK_SIZE_IN_CENTS : Z := 100.

(** The latest snapshot of each book. *)
Record market_data : Type := MarketData {
  ETF_ask_arr : levels;
  ETF_bid_arr : levels;
  ETF_bestAsk : Z;
  ETF_bestBid : Z;
  ETF_midprice : Z;
  FTR_ask_arr : levels;
  FTR_bid_arr : levels;
  FTR_bestAsk : Z;
  FTR_bestBid : Z;
  FTR_midprice : Z;
  FTR_ask_vol_arr : levels;
  FTR_bid_vol_arr : levels
}.

(** The rolling windows, the spread history and the two signal flags. *)
Record statistics : Type := Statistics {
  ETF_recent_mp_prices : list Z;
  FTR_recent_mp_prices : list Z;
  DIFF_recent_mp_prices : list Z;
  ETF_Much_Greater : bool;
  FTR_Much_Greater : bool
}.

Record positions : Type := Positions {
  ETF_Pos : Z;
  FTR_Pos : Z;
  mPosition : Z
}.

(** Identifiers and the sets of tracked orders.  [mAskID] (used when sending)
    and [mAskId] (cleared by status updates) are two members. *)
Record tracking : Type := Tracking {
  mAskID : Z;
  ETF_tempID : Z;
  mAskId : Z;
  mBidId : Z;
  mNextMessageId : Z;
  mAsks : gset Z;
  mBids : gset Z
}.

(** The trader's record of what it sent. *)
Record own_book : Type := OwnBook {
  my_ETF_ask_arr : list Z;
  my_ETF_ask_ids : list Z;
  my_ETF_ask_vol_arr : list Z;
  my_ETF_bid_arr : list Z;
  my_ETF_bid_ids : list Z;
  my_etf_bid_vol_arr : list Z;
  my_FTR_bid_arr : list Z;
  my_FTR_bid_vol_arr : list Z;
  my_FTR_ask_arr : list Z;
  my_FTR_ask_ids : list Z;
  my_FTR_ask_vol_arr : list Z
}.

Record AutoTrader : Type := Trader {
  market : market_data;
  stats : statistics;
  pos : positions;
  track : tracking;
  own : own_book
}.

Definition with_market (m : market_data) (s : AutoTrader) : AutoTrader :=
  Trader m (stats s) (pos s) (track s) (own s).
Definition with_stats (st : statistics) (s : AutoTrader) : AutoTrader :=
  Trader (market s) st (pos s) (track s) (own s).
Definition with_pos (p : positions) (s : AutoTrader) : AutoTrader :=
  Trader (market s) (stats s) p (track s) (own s).
Definition with_track (t : tracking) (s : AutoTrader) : AutoTrader :=
  Trader (market s) (stats s) (pos s) t (own s).
Definition with_own (o : own_book) (s : AutoTrader) : AutoTrader :=
  Trader (market s) (stats s) (pos s) (track s) o.

(** ** Market updates: [OrderBookMessageHandler], [TradeTicksMessageHandler] *)

(** The window update
    [if (w.size() <= 31) w.push_back(m); else { w.pop(); w.push_back(m); }]. *)
Definition record_midprice (w : list Z) (m : Z) : list Z :=
  if size w <=? 31 then w ++ [m] else tl w ++ [m].

(** [(bestAsk + bestBid) / 2] on [unsigned long]. *)
Definition midprice (bestAsk bestBid : Z) : Z := UInt64.add bestAsk bestBid / 2.

Definition store_ETF (askPrices bidPrices : levels) (s : AutoTrader) : AutoTrader :=
  let m := market s in
  let st := stats s in
  let mid := midprice (top askPrices) (top bidPrices) in
  with_market
    {| ETF_ask_arr := askPrices;
       ETF_bid_arr := bidPrices;
       ETF_bestAsk := top askPrices;
       ETF_bestBid := top bidPrices;
       ETF_midprice := mid;
       FTR_ask_arr := FTR_ask_arr m;
       FTR_bid_arr := FTR_bid_arr m;
       FTR_bestAsk := FTR_bestAsk m;
       FTR_bestBid := FTR_bestBid m;
       FTR_midprice := FTR_midprice m;
       FTR_ask_vol_arr := FTR_ask_vol_arr m;
       FTR_bid_vol_arr := FTR_bid_vol_arr m |}
    (with_stats
       {| ETF_recent_mp_prices := record_midprice (ETF_recent_mp_prices st) mid;
          FTR_recent_mp_prices := FTR_recent_mp_prices st;
          DIFF_recent_mp_prices := DIFF_recent_mp_prices st;
          ETF_Much_Greater := ETF_Much_Greater st;
          FTR_Much_Greater := FTR_Much_Greater st |}
       s).

Definition store_FTR (askPrices bidPrices : levels) (s : AutoTrader) : AutoTrader :=
  let m := market s in
  let st := stats s in
  let mid := midprice (top askPrices) (top bidPrices) in
  with_market
    {| ETF_ask_arr := ETF_ask_arr m;
       ETF_bid_arr := ETF_bid_arr m;
       ETF_bestAsk := ETF_bestAsk m;
       ETF_bestBid := ETF_bestBid m;
       ETF_midprice := ETF_midprice m;
       FTR_ask_arr := askPrices;
       FTR_bid_arr := bidPrices;
       FTR_bestAsk := top askPrices;
       FTR_bestBid := top bidPrices;
       FTR_midprice := mid;
       FTR_ask_vol_arr := FTR_ask_vol_arr m;
       FTR_bid_vol_arr := FTR_bid_vol_arr m |}
    (with_stats
       {| ETF_recent_mp_prices := ETF_recent_mp_prices st;
          FTR_recent_mp_prices := record_midprice (FTR_recent_mp_prices st) mid;
          DIFF_recent_mp_prices := DIFF_recent_mp_prices st;
          ETF_Much_Greater := ETF_Much_Greater st;
          FTR_Much_Greater := FTR_Much_Greater st |}
       s).

(** [w[w.size() - 1]]. *)
Definition newest_of (w : list Z) : res Z := at_index w (UInt64.sub (size w) 1).

(** The spread sample pushed on [DIFF_recent_mp_prices]: the difference of
    the newest entries of the two windows, on [unsigned long]. *)
Definition spread_sample (st : statistics) : res Z :=
  let* e := newest_of (ETF_recent_mp_prices st) in
  let* f := newest_of (FTR_recent_mp_prices st) in
  Ok (UInt64.sub e f).

(** The body of [if (ETF.size() == FTR.size()) { push_back; deterMineOrderStatus }]. *)
Definition sample_and_evaluate (s : AutoTrader) : res AutoTrader :=
  let st := stats s in
  if size (ETF_recent_mp_prices st) =? size (FTR_recent_mp_prices st) then
    let* d := spread_sample st in
    let history := DIFF_recent_mp_prices st ++ [d] in
    let* v := deterMineOrderStatus history in
    Ok (with_stats
          {| ETF_recent_mp_prices := ETF_recent_mp_prices st;
             FTR_recent_mp_prices := FTR_recent_mp_prices st;
             DIFF_recent_mp_prices := history;
             ETF_Much_Greater := v_ETF_Much_Greater v;
             FTR_Much_Greater := v_FTR_Much_Greater v |}
          s)
  else Ok s.

(** [std::min((unsigned long)LOT_SIZE, x)]. *)
Definition lot (x : Z) : Z := Z.min LOT_SIZE x.

(** [ETF_Pos - lot > -100]: the subtraction and the comparison are on
    [unsigned long], [-100] being converted to it. *)
Definition may_sell (s : AutoTrader) : bool :=
  ETF_Much_Greater (stats s)
  && (UInt64.wrap (-100)
        <? UInt64.sub (Int64.to_unsigned (ETF_Pos (pos s))) (lot (top (ETF_bid_arr (market s))))).

(** [ETF_Pos + lot < 100], on [unsigned long] as well. *)
Definition may_buy (s : AutoTrader) : bool :=
  FTR_Much_Greater (stats s)
  && (UInt64.add (Int64.to_unsigned (ETF_Pos (pos s))) (lot (top (ETF_bid_arr (market s))))
        <? 100).

(** The branch taken when the ETF is rich: sell the ETF at its best bid and
    buy the future at its best ask. *)
Definition sell_ETF_buy_FTR (s : AutoTrader) : AutoTrader * list order :=
  let m := market s in
  let t := track s in
  let o := own s in
  let vol := lot (top (ETF_bid_arr m)) in
  let tempID2 := UInt32.wrap (mAskID t) in
  let hedge_vol := lot (top (FTR_ask_vol_arr m)) in
  (with_own
     {| my_ETF_ask_arr := my_ETF_ask_arr o ++ [ETF_bestBid m];
        my_ETF_ask_ids := my_ETF_ask_ids o ++ [ETF_tempID t];
        my_ETF_ask_vol_arr := my_ETF_ask_vol_arr o ++ [vol];
        my_ETF_bid_arr := my_ETF_bid_arr o;
        my_ETF_bid_ids := my_ETF_bid_ids o;
        my_etf_bid_vol_arr := my_etf_bid_vol_arr o;
        my_FTR_bid_arr := my_FTR_bid_arr o ++ [FTR_bestAsk m];
        my_FTR_bid_vol_arr := my_FTR_bid_vol_arr o ++ [hedge_vol];
        my_FTR_ask_arr := my_FTR_ask_arr o;
        my_FTR_ask_ids := my_FTR_ask_ids o ++ [tempID2];
        my_FTR_ask_vol_arr := my_FTR_ask_vol_arr o |}
     s,
   [ SendInsertOrder (mAskID t) SELL (ETF_bestBid m) vol GOOD_FOR_DAY;
     SendHedgeOrder (mAskID t) BUY (FTR_bestAsk m) hedge_vol (Some GOOD_FOR_DAY) ]).

(** The branch taken when the future is rich: buy the ETF at its best ask and
    sell the future at its best bid. *)
Definition buy_ETF_sell_FTR (s : AutoTrader) : AutoTrader * list order :=
  let m := market s in
  let t := track s in
  let o := own s in
  let vol := lot (top (ETF_ask_arr m)) in
  let hedge_vol := lot (top (FTR_bid_vol_arr m)) in
  (with_own
     {| my_ETF_ask_arr := my_ETF_ask_arr o;
        my_ETF_ask_ids := my_ETF_ask_ids o;
        my_ETF_ask_vol_arr := my_ETF_ask_vol_arr o;
        my_ETF_bid_arr := my_ETF_bid_arr o ++ [ETF_bestAsk m];
        my_ETF_bid_ids := my_ETF_bid_ids o ++ [mAskID t];
        my_etf_bid_vol_arr := my_etf_bid_vol_arr o ++ [vol];
        my_FTR_bid_arr := my_FTR_bid_arr o;
        my_FTR_bid_vol_arr := my_FTR_bid_vol_arr o;
        my_FTR_ask_arr := my_FTR_ask_arr o ++ [FTR_bestBid m];
        my_FTR_ask_ids := my_FTR_ask_ids o ++ [mAskID t];
        my_FTR_ask_vol_arr := my_FTR_ask_vol_arr o ++ [hedge_vol] |}
     s,
   [ SendInsertOrder (mAskID t) BUY (ETF_bestAsk m) vol GOOD_FOR_DAY;
     SendHedgeOrder (mAskID t) SELL (FTR_bestBid m) hedge_vol (Some GOOD_FOR_DAY) ]).

(** The [if / else if] that places the pair of orders. *)
Definition place_orders (s : AutoTrader) : AutoTrader * list order :=
  if may_sell s then sell_ETF_buy_FTR s
  else if may_buy s then buy_ETF_sell_FTR s
  else (s, []).

(** The block guarded by [ETF_midprice != 0 && FTR_midprice != 0], the same
    text in both instrument branches of both handlers. *)
Definition evaluate_and_trade (s : AutoTrader) : res (AutoTrader * list order) :=
  if negb (ETF_midprice (market s) =? 0) && negb (FTR_midprice (market s) =? 0) then
    let* s' := sample_and_evaluate s in
    Ok (place_orders s')
  else Ok (s, []).

(** The first half of an instrument's branch: snapshot, midprice, window. *)
Definition store (instrument : Instrument) (askPrices bidPrices : levels)
    (s : AutoTrader) : AutoTrader :=
  match instrument with
  | ETF => store_ETF askPrices bidPrices s
  | FUTURE => store_FTR askPrices bidPrices s
  end.

(** The body shared by the two market-data handlers; the volumes of the
    message are logged and not stored. *)
Definition on_market_update (instrument : Instrument)
    (askPrices askVolumes bidPrices bidVolumes : levels) (s : AutoTrader)
  : res (AutoTrader * list order) :=
  evaluate_and_trade (store instrument askPrices bidPrices s).

Definition OrderBookMessageHandler (instrument : Instrument) (sequenceNumber : Z)
    (askPrices askVolumes bidPrices bidVolumes : levels) (s : AutoTrader)
  : res (AutoTrader * list order) :=
  on_market_update instrument askPrices askVolumes bidPrices bidVolumes s.

Definition TradeTicksMessageHandler (instrument : Instrument) (sequenceNumber : Z)
    (askPrices askVolumes bidPrices bidVolumes : levels) (s : AutoTrader)
  : res (AutoTrader * list order) :=
  on_market_update instrument askPrices askVolumes bidPrices bidVolumes s.

(** ** Order callbacks *)

(** [OrderStatusMessageHandler]: an order with nothing left to trade gives up
    its slot and leaves both tracking sets. *)
Definition OrderStatusMessageHandler (clientOrderId fillVolume remainingVolume fees : Z)
    (s : AutoTrader) : AutoTrader :=
  if remainingVolume =? 0 then
    let t := track s in
    with_track
      {| mAskID := mAskID t;
         ETF_tempID := ETF_tempID t;
         mAskId := if clientOrderId =? mAskId t then 0 else mAskId t;
         mBidId := if clientOrderId =? mAskId t then mBidId t
                   else if clientOrderId =? mBidId t then 0
                   else mBidId t;
         mNextMessageId := mNextMessageId t;
         mAsks := mAsks t ∖ {[clientOrderId]};
         mBids := mBids t ∖ {[clientOrderId]} |}
      s
  else s.

(** The test of [ErrorMessageHandler]: a nonzero identifier that one of the
    two sets holds. *)
Definition is_tracked_error (clientOrderId : Z) (s : AutoTrader) : bool :=
  negb (clientOrderId =? 0)
  && (bool_decide (clientOrderId ∈ mAsks (track s))
      || bool_decide (clientOrderId ∈ mBids (track s))).

Definition ErrorMessageHandler (clientOrderId : Z) (s : AutoTrader) : AutoTrader :=
  if is_tracked_error clientOrderId s
  then OrderStatusMessageHandler clientOrderId 0 0 0 s
  else s.

(** [HedgeFilledMessageHandler] and [DisconnectHandler] log and change nothing
    of the trader's own. *)
Definition HedgeFilledMessageHandler (clientOrderId price volume : Z)
    (s : AutoTrader) : AutoTrader := s.

Definition DisconnectHandler (s : AutoTrader) : AutoTrader := s.

(** [mPosition] after a fill of [delta] lots (negative for a sale); the
    arithmetic is on [long]. *)
Definition apply_fill (delta : Z) (s : AutoTrader) : res AutoTrader :=
  let p := pos s in
  let* q := Int64.checked (mPosition p + delta) in
  Ok (with_pos {| ETF_Pos := ETF_Pos p; FTR_Pos := FTR_Pos p; mPosition := q |} s).

(** [mNextMessageId++]: the old value is the one used. *)
Definition next_message_id (s : AutoTrader) : Z * AutoTrader :=
  let t := track s in
  (mNextMessageId t,
   with_track
     {| mAskID := mAskID t;
        ETF_tempID := ETF_tempID t;
        mAskId := mAskId t;
        mBidId := mBidId t;
        mNextMessageId := UInt64.add (mNextMessageId t) 1;
        mAsks := mAsks t;
        mBids := mBids t |}
     s).

Section Venue.
(** The price bounds of the venue, [MINIMUM_BID] and [MAXIMUM_ASK], come
    from the exchange library and are parameters here. *)
Variables MINIMUM_BID MAXIMUM_ASK : Z.

(** Quotients of [int]s truncate towards zero. *)
Definition MIN_BID_NEARST_TICK : Z :=
  (MINIMUM_BID + TICK_SIZE_IN_CENTS) ÷ TICK_SIZE_IN_CENTS * TICK_SIZE_IN_CENTS.
Definition MAX_ASK_NEAREST_TICK : Z :=
  MAXIMUM_ASK ÷ TICK_SIZE_IN_CENTS * TICK_SIZE_IN_CENTS.

Definition OrderFilledMessageHandler (clientOrderId price volume : Z)
    (s : AutoTrader) : res (AutoTrader * list order) :=
  if bool_decide (clientOrderId ∈ mAsks (track s)) then
    let* s1 := apply_fill (- Int64.of_unsigned volume) s in
    let '(id, s2) := next_message_id s1 in
    Ok (s2, [SendHedgeOrder id BUY MAX_ASK_NEAREST_TICK volume None])
  else if bool_decide (clientOrderId ∈ mBids (track s)) then
    let* s1 := apply_fill (Int64.of_unsigned volume) s in
    let '(id, s2) := next_message_id s1 in
    Ok (s2, [SendHedgeOrder id SELL MIN_BID_NEARST_TICK volume None])
  else Ok (s, []).

(** ** The callbacks as events, and runs of the trader *)

Inductive callback : Type :=
| OrderBookMessage (instrument : Instrument) (sequenceNumber : Z)
    (askPrices askVolumes bidPrices bidVolumes : levels)
| TradeTicksMessage (instrument : Instrument) (sequenceNumber : Z)
    (askPrices askVolumes bidPrices bidVolumes : levels)
| OrderFilledMessage (clientOrderId price volume : Z)
| OrderStatusMessage (clientOrderId fillVolume remainingVolume fees : Z)
| HedgeFilledMessage (clientOrderId price volume : Z)
| ErrorMessage (clientOrderId : Z)
| Disconnect.

Definition handle (c : callback) (s : AutoTrader) : res (AutoTrader * list order) :=
  match c with
  | OrderBookMessage i n ap av bp bv => OrderBookMessageHandler i n ap av bp bv s
  | TradeTicksMessage i n ap av bp bv => TradeTicksMessageHandler i n ap av bp bv s
  | OrderFilledMessage id p v => OrderFilledMessageHandler id p v s
  | OrderStatusMessage id f r fees => Ok (OrderStatusMessageHandler id f r fees s, [])
  | HedgeFilledMessage id p v => Ok (HedgeFilledMessageHandler id p v s, [])
  | ErrorMessage id => Ok (ErrorMessageHandler id s, [])
  | Disconnect => Ok (DisconnectHandler s, [])
  end.

(** The gateway delivers one callback at a time; a run threads the state
    through them and collects the orders sent, in order. *)
Fixpoint run (cs : list callback) (s : AutoTrader) : res (AutoTrader * list order) :=
  match cs with
  | [] => Ok (s, [])
  | c :: cs' =>
      let* (s1, sent1) := handle c s in
      let* (s2, sent2) := run cs' s1 in
      Ok (s2, sent1 ++ sent2)
  end.
End Venue.

Definition no_levels : levels := Levels 0 [].

(** Modelled from the spec: the initial values of the members, which the
    class declaration in [autotrader.h] would give and the constructor does
    not set.  The design asks for all counters zero and all windows empty;
    message identifiers start from one. *)
Definition idle : AutoTrader :=
  {| market := MarketData no_levels no_levels 0 0 0 no_levels no_levels 0 0 0
                 no_levels no_levels;
     stats := Statistics [] [] [] false false;
     pos := Positions 0 0 0;
     track := Tracking 0 0 0 0 1 ∅ ∅;
     own := OwnBook [] [] [] [] [] [] [] [] [] [] [] |}.

(** ** Well-formed states

    Windows and snapshots that fit together: a window never holds more than
    32 midprices, the newest entry of a window that is not empty is the
    midprice of the latest snapshot, and midprices are halves of an
    [unsigned long]. *)
Definition coherent (s : AutoTrader) : Prop :=
  size (ETF_recent_mp_prices (stats s)) <= 32
  /\ size (FTR_recent_mp_prices (stats s)) <= 32
  /\ (forall x, last (ETF_recent_mp_prices (stats s)) = Some x ->
                x = ETF_midprice (market s))
  /\ (forall x, last (FTR_recent_mp_prices (stats s)) = Some x ->
                x = FTR_midprice (market s))
  /\ 0 <= ETF_midprice (market s) < 2 ^ 63
  /\ 0 <= FTR_midprice (market s) < 2 ^ 63.

(** ** Positions and limits *)


(** A trader that tracks no order. *)
Definition untracked (s : AutoTrader) : Prop :=
  mAsks (track s) = ∅ /\ mBids (track s) = ∅.


(** The book entries that size orders hold [unsigned long] values. *)
Definition books_in_range (s : AutoTrader) : Prop :=
  UInt64.in_range (top (ETF_ask_arr (market s)))
  /\ UInt64.in_range (top (ETF_bid_arr (market s)))
  /\ UInt64.in_range (top (FTR_ask_vol_arr (market s)))
  /\ UInt64.in_range (top (FTR_bid_vol_arr (market s))).

Definition signed_volume (side : Side) (volume : Z) : Z :=
  match side with
  | BUY => volume
  | SELL => - volume
  end.

(** The position an order would leave if it were filled in full: insert
    orders trade the ETF, hedge orders the future. *)
Definition position_if_filled (p : positions) (o : order) : Z :=
  match o with
  | SendInsertOrder _ side _ volume _ => ETF_Pos p + signed_volume side volume
  | SendHedgeOrder _ side _ volume _ => FTR_Pos p + signed_volume side volume
  end.



(** ** Scenarios

    Concrete books and states on which the handlers are evaluated below.
    The venue bounds are those of the exchange: bids from 1, asks up to
    [2^31 - 1]. *)

Definition lv (x : Z) : levels := Levels x [].

Definition venue_run : list callback -> AutoTrader -> res (AutoTrader * list order) :=
  run 1 2147483647.

(** An ETF book with bid and ask both at [k]: its midprice is [k]. *)
Definition etf_quote (k : Z) : callback :=
  OrderBookMessage ETF k (lv k) (lv 1) (lv k) (lv 1).

(** A trader that holds one earlier spread sample. *)
Definition one_sample_seen : AutoTrader :=
  with_stats (Statistics [] [] [7] false false) idle.

(** The future quoted 199 (3 lots) to 201 (5 lots). *)
Definition future_book : callback :=
  OrderBookMessage FUTURE 1 (lv 201) (lv 5) (lv 199) (lv 3).

(** The ETF quoted 199 (3 lots) to 200 (5 lots): midprice 199, one below the
    future's 200. *)
Definition etf_book_below : callback :=
  OrderBookMessage ETF 2 (lv 200) (lv 5) (lv 199) (lv 3).

(** The ETF quoted like the future: midprice 200, a spread of zero. *)
Definition etf_book_level : callback :=
  OrderBookMessage ETF 2 (lv 201) (lv 5) (lv 199) (lv 3).

(** A trader tracking the sale 5 and the purchase 6, as [mAsks] and [mBids]
    record them, with 6 also in the bid slot. *)
Definition tracking_two : AutoTrader :=
  with_track (Tracking 0 0 0 6 1 {[5]} {[6]}) idle.

(** The state a run ends in (the starting state if the run faults). *)
Definition state_after (cs : list callback) (s : AutoTrader) : AutoTrader :=
  match venue_run cs s with
  | Ok (s', _) => s'
  | Fault _ => s
  end.

(** One earlier spread sample, then the future's book. *)
Definition future_seen : AutoTrader := state_after [future_book] one_sample_seen.

(** ... and then the ETF's book one below it. *)
Definition sold_below : AutoTrader :=
  state_after [future_book; etf_book_below] one_sample_seen.

(** A short session: the two books above, then a fill, a closing status, an
    error and a hedge fill, all for the identifier the orders were sent
    under. *)
Definition session : list callback :=
  [ future_book; etf_book_below;
    OrderFilledMessage 0 199 10; OrderStatusMessage 0 10 0 0;
    ErrorMessage 3; HedgeFilledMessage 0 201 0 ].

(** ** The statistics as the design words them

    The two definitions below follow the design document, not the code: the
    statistics describe the samples before the newest one. *)

(** The trailing samples without the newest. *)
Definition spec_history (q : list Z) : list Z := removelast q.

Definition spec_sum (xs : list Z) : Z := fold_right Z.add 0 xs.

(** The arithmetic mean of the samples before the newest. *)
Definition spec_spreadMean (q : list Z) : Z :=
  spec_sum (spec_history q) / size (spec_history q).

(** The population deviation of a list of samples: the root of the mean of
    the squared distances to their mean (here to the nearest integer below). *)
Definition spec_spreadStdDev (xs : list Z) : Z :=
  let mean := spec_sum xs / size xs in
  Z.sqrt (spec_sum (map (fun x => (x - mean) ^ 2) xs) / size xs).

(** ** Relations between the states of a run *)

(** Callbacks that only log: a hedge fill, a status update with volume
    remaining, an error for identifier zero. *)
Definition informational (c : callback) : bool :=
  match c with
  | HedgeFilledMessage _ _ _ => true
  | OrderStatusMessage _ _ remainingVolume _ => negb (remainingVolume =? 0)
  | ErrorMessage clientOrderId => clientOrderId =? 0
  | _ => false
  end.

Definition is_market_update (c : callback) : bool :=
  match c with
  | OrderBookMessage _ _ _ _ _ _ | TradeTicksMessage _ _ _ _ _ _ => true
  | _ => false
  end.

(** What no callback changes, or changes in one direction only, between a
    state [s] and a later state [s']. *)
Definition later (s s' : AutoTrader) : Prop :=
  mAsks (track s') ⊆ mAsks (track s)
  /\ mBids (track s') ⊆ mBids (track s)
  /\ mAskID (track s') = mAskID (track s)
  /\ ETF_tempID (track s') = ETF_tempID (track s)
  /\ ETF_Pos (pos s') = ETF_Pos (pos s)
  /\ FTR_Pos (pos s') = FTR_Pos (pos s)
  /\ FTR_ask_vol_arr (market s') = FTR_ask_vol_arr (market s)
  /\ FTR_bid_vol_arr (market s') = FTR_bid_vol_arr (market s)
  /\ exists appended,
       DIFF_recent_mp_prices (stats s') = DIFF_recent_mp_prices (stats s) ++ appended.

(** The two signal flags are not both set. *)
Definition exclusive (s : AutoTrader) : Prop :=
  ETF_Much_Greater (stats s) && FTR_Much_Greater (stats s) = false.

(** The lists of the trader's own book that grow together: those of a sale
    of the ETF with its hedge, those of a purchase with its hedge, and
    [my_FTR_ask_ids], which both branches extend. *)
Definition in_step (o : own_book) : Prop :=
  let sales := length (my_ETF_ask_arr o) in
  let purchases := length (my_ETF_bid_arr o) in
  length (my_ETF_ask_ids o) = sales
  /\ length (my_ETF_ask_vol_arr o) = sales
  /\ length (my_FTR_bid_arr o) = sales
  /\ length (my_FTR_bid_vol_arr o) = sales
  /\ length (my_ETF_bid_ids o) = purchases
  /\ length (my_etf_bid_vol_arr o) = purchases
  /\ length (my_FTR_ask_arr o) = purchases
  /\ length (my_FTR_ask_vol_arr o) = purchases
  /\ length (my_FTR_ask_ids o) = (sales + purchases)%nat.

(** The number of insert orders in a list of orders. *)
Definition is_insert (o : order) : bool :=
  match o with
  | SendInsertOrder _ _ _ _ _ => true
  | SendHedgeOrder _ _ _ _ _ => false
  end.

Definition count_inserts (sent : list order) : nat :=
  length (List.filter is_insert sent).

(** The start-up condition of the spread history: no sample, no signal. *)
Definition unsampled (s : AutoTrader) : Prop :=
  DIFF_recent_mp_prices (stats s) = []
  /\ ETF_Much_Greater (stats s) = false
  /\ FTR_Much_Greater (stats s) = false.

(** A queue holding [n] fills of one order. *)
Definition fills (n : nat) (clientOrderId price volume : Z) : list callback :=
  repeat (OrderFilledMessage clientOrderId price volume) n.

(** [first, first + 1, ...], [n] message identifiers on [unsigned long]. *)
Fixpoint message_ids (first : Z) (n : nat) : list Z :=
  match n with
  | O => []
  | S n' => first :: message_ids (UInt64.add first 1) n'
  end.

(** ** The orders of a run *)

Definition opposite (side : Side) : Side :=
  match side with
  | BUY => SELL
  | SELL => BUY
  end.

(** What ties an order of a run to the state [s0] the run started in: an
    insert order, or a hedge order with a lifespan (the hedge leg of a market
    update), goes out under the identifier [mAskID] of [s0]; the hedge leg is
    sized from the volume arrays of [s0].  A hedge order without a lifespan
    (the hedge of a fill) is not constrained. *)
Definition sent_under (s0 : AutoTrader) (o : order) : Prop :=
  match o with
  | SendInsertOrder id _ _ volume lifespan =>
      id = mAskID (track s0) /\ lifespan = GOOD_FOR_DAY /\ volume <= LOT_SIZE
  | SendHedgeOrder id side _ volume (Some lifespan) =>
      id = mAskID (track s0) /\ lifespan = GOOD_FOR_DAY
      /\ volume = lot (top (match side with
                            | BUY => FTR_ask_vol_arr (market s0)
                            | SELL => FTR_bid_vol_arr (market s0)
                            end))
  | SendHedgeOrder _ _ _ _ None => True
  end.

(** ** Orders and the position limit *)


(** The orders a run sends (none if the run faults). *)
Definition orders_after (cs : list callback) (s : AutoTrader) : list order :=
  match venue_run cs s with
  | Ok (_, sent) => sent
  | Fault _ => []
  end.




(** The future quoted 6 to 8: midprice 7. *)
Definition future_at_seven : callback :=
  OrderBookMessage FUTURE 1 (lv 8) (lv 1) (lv 6) (lv 1).

(** A trader long 95 lots of the ETF that has seen that book. *)
Definition long_95 : AutoTrader :=
  with_pos (Positions 95 0 0) (state_after [future_at_seven] one_sample_seen).

(** The ETF quoted 4 to 10: midprice 7, a spread of zero. *)
Definition etf_four_to_ten : callback :=
  OrderBookMessage ETF 2 (lv 10) (lv 1) (lv 4) (lv 1).

(** * Properties *)



(** ** Arithmetic of the machine integers *)

Lemma wrap_range z : 0 <= UInt64.wrap z < UInt64.modulus.
Proof. unfold UInt64.wrap, UInt64.modulus. apply Z.mod_pos_bound. lia. Qed.

Lemma wrap_small z : 0 <= z < UInt64.modulus -> UInt64.wrap z = z.
Proof. intros H. unfold UInt64.wrap. apply Z.mod_small. exact H. Qed.

Lemma wrap_negative z : - UInt64.modulus <= z < 0 -> UInt64.wrap z = z + UInt64.modulus.
Proof.
  intros H. unfold UInt64.wrap.
  symmetry. apply (Z.mod_unique z UInt64.modulus (-1)); unfold UInt64.modulus in *; lia.
Qed.

Lemma add_wrap_r a b : UInt64.add a (UInt64.wrap b) = UInt64.add a b.
Proof. unfold UInt64.add, UInt64.wrap. apply Zplus_mod_idemp_r. Qed.

Lemma sub_wrap_r a b : UInt64.sub a (UInt64.wrap b) = UInt64.sub a b.
Proof. unfold UInt64.sub, UInt64.wrap. apply Zminus_mod_idemp_r. Qed.

Lemma add_wrap_l a b : UInt64.add (UInt64.wrap a) b = UInt64.add a b.
Proof. unfold UInt64.add, UInt64.wrap. apply Zplus_mod_idemp_l. Qed.

Lemma sub_wrap_l a b : UInt64.sub (UInt64.wrap a) b = UInt64.sub a b.
Proof. unfold UInt64.sub, UInt64.wrap. apply Zminus_mod_idemp_l. Qed.

Lemma mul_one z : UInt64.mul 1 z = UInt64.wrap z.
Proof. unfold UInt64.mul. f_equal. lia. Qed.

Lemma size_cons x (q : list Z) : size (x :: q) = size q + 1.
Proof. unfold size. cbn [length]. lia. Qed.

Lemma size_app (q r : list Z) : size (q ++ r) = size q + size r.
Proof. unfold size. rewrite length_app. lia. Qed.

Lemma size_nonneg (q : list Z) : 0 <= size q.
Proof. unfold size. lia. Qed.

Lemma at_index_cons a q i : 0 < i -> at_index (a :: q) i = at_index q (i - 1).
Proof.
  intros Hi. unfold at_index. rewrite size_cons.
  replace (Z.to_nat i) with (S (Z.to_nat (i - 1))) by lia. cbn [nth_error].
  destruct (Z.leb_spec 0 i), (Z.leb_spec 0 (i - 1)); try lia.
  destruct (Z.ltb_spec i (size q + 1)), (Z.ltb_spec (i - 1) (size q)); try lia;
    reflexivity.
Qed.

Lemma at_index_snoc w m : at_index (w ++ [m]) (size w) = Ok m.
Proof.
  pose proof (size_nonneg w) as H0.
  unfold at_index. rewrite size_app. change (size [m]) with 1.
  destruct (Z.leb_spec 0 (size w)); [|lia].
  destruct (Z.ltb_spec (size w) (size w + 1)); [|lia]. cbn [andb].
  unfold size. rewrite Nat2Z.id, nth_error_app2 by lia.
  rewrite Nat.sub_diag. reflexivity.
Qed.

(** ** The signal evaluation *)

Lemma sum_entries_snoc xs x : sum_entries (xs ++ [x]) = UInt64.add (sum_entries xs) x.
Proof. unfold sum_entries. rewrite fold_left_app. reflexivity. Qed.

Lemma sum_squares_snoc avg xs x acc :
  sum_squares avg (xs ++ [x]) acc =
  (let* a := sum_squares avg xs acc in accumulate_square avg a x).
Proof.
  revert acc. induction xs as [|y ys IH]; intros acc; cbn.
  - destruct (accumulate_square avg acc x); reflexivity.
  - destruct (accumulate_square avg acc y); cbn; [apply IH | reflexivity].
Qed.

(** Whatever it is given, the last step of the deviation yields one. *)
Lemma root_step_is_one z :
  Double.to_ulong (Double.pow (Double.of_ulong z) exponent_half) = Ok 1.
Proof. reflexivity. Qed.

Lemma spread_stddev_with_cases n q avg :
  spread_stddev_with n q avg = Ok 1 \/ exists why, spread_stddev_with n q avg = Fault why.
Proof.
  unfold spread_stddev_with.
  destruct (loop_entries q) as [entries|why]; cbn; [|eauto].
  destruct (sum_squares avg entries 0) as [squares|why]; cbn; [|eauto].
  destruct (UInt64.div squares (UInt64.sub n 1)) as [quotient|why]; cbn; [|eauto].
  left. apply root_step_is_one.
Qed.

(** The front entry is read by neither loop, and for a history of two or
    more entries it is not the newest one either. *)
Lemma front_entry_unused_with n a b x q :
  deterMineOrderStatus_with n (a :: x :: q) = deterMineOrderStatus_with n (b :: x :: q).
Proof.
  unfold deterMineOrderStatus_with, spread_mean_with, spread_stddev_with, loop_entries.
  rewrite !(size_cons _ (x :: q)). cbn [tl].
  destruct (2 ^ 31 <=? size (x :: q) + 1) eqn:Hbig; cbn [res_bind]; [reflexivity|].
  destruct (UInt64.div (sum_entries (x :: q)) (UInt64.sub n 1)) as [avg|why];
    cbn [res_bind]; [|reflexivity].
  destruct (sum_squares avg (x :: q) 0) as [sq|why]; cbn [res_bind]; [|reflexivity].
  destruct (UInt64.div sq (UInt64.sub n 1)) as [quo|why]; cbn [res_bind]; [|reflexivity].
  rewrite root_step_is_one. cbn [res_bind].
  apply Z.leb_gt in Hbig. pose proof (size_nonneg (x :: q)) as Hq.
  assert (Hlast : UInt32.wrap (UInt64.sub (size (x :: q) + 1) 1) = size (x :: q)).
  { unfold UInt64.sub. replace (size (x :: q) + 1 - 1) with (size (x :: q)) by lia.
    rewrite wrap_small by (unfold UInt64.modulus; lia).
    unfold UInt32.wrap, UInt32.modulus. apply Z.mod_small. lia. }
  rewrite Hlast. rewrite !(at_index_cons _ (x :: q))
    by (pose proof (size_nonneg q); rewrite size_cons; lia).
  reflexivity.
Qed.

Lemma one_entry_divides_by_zero x : deterMineOrderStatus [x] = Fault DivisionByZero.
Proof. reflexivity. Qed.

Lemma front_entry_unused a b q : deterMineOrderStatus (a :: q) = deterMineOrderStatus (b :: q).
Proof.
  destruct q as [|x q]; [rewrite !one_entry_divides_by_zero; reflexivity|].
  unfold deterMineOrderStatus. rewrite !(size_cons _ (x :: q)).
  apply front_entry_unused_with.
Qed.

(** *** C2: a history of one sample *)

(** C2.  The design asks that a spread history too short for statistics be
    judged NEUTRAL without dividing by zero.  The evaluation has no such
    guard: on a history of one sample the loop adds nothing and the mean is
    then divided by [size - 1 = 0].  This is what the first spread sample of
    a session meets: from start-up, an ETF book followed by a future book
    ends in that division.  With one earlier sample the division is by one,
    but the verdict need not be NEUTRAL: after [7], a newest sample of zero
    is judged FUTURE_RICH. *)
Theorem one_sample_history_divides_by_zero :
  (forall x : Z,
      spread_mean [x] = Fault DivisionByZero
      /\ deterMineOrderStatus [x] = Fault DivisionByZero)
  /\ venue_run [etf_book_level; future_book] idle = Fault DivisionByZero
  /\ deterMineOrderStatus [7; 0] = Ok FUTURE_RICH.
Proof.
  split; [intros x; split; reflexivity|].
  split; [vm_compute; reflexivity | reflexivity].
Qed.

(** *** C3: the deviation *)

(** C3.  The design asks for the square root of the mean squared deviation.
    The evaluation raises the mean squared deviation to the power [1/2], a
    quotient of integers, that is to the power zero: the deviation is one
    whenever it is defined at all.  On the history [0, 10, 10] the samples
    the loops cover are [10, 10], whose deviation is zero, and the samples
    before the newest are [0, 10], whose deviation is five; the evaluation
    uses one. *)
Theorem deviation_is_always_one :
  (forall q avg, spread_stddev q avg = Ok 1
                 \/ exists why, spread_stddev q avg = Fault why)
  /\ spread_mean [0; 10; 10] = Ok 10
  /\ spread_stddev [0; 10; 10] 10 = Ok 1
  /\ spec_spreadStdDev [10; 10] = 0
  /\ spec_spreadStdDev (spec_history [0; 10; 10]) = 5.
Proof.
  split; [|repeat split; reflexivity].
  intros q avg. apply spread_stddev_with_cases.
Qed.

(** *** C4: the samples the statistics cover *)

(** C4, as stated, fails: the newest sample is counted.  Two histories that
    differ in their newest sample only have different means, and the mean of
    the design (over all samples but the newest) is not the one computed. *)
Lemma newest_sample_moves_the_mean :
  spread_mean ([0; 10] ++ [10]) = Ok 10
  /\ spread_mean ([0; 10] ++ [30]) = Ok 20
  /\ spec_spreadMean ([0; 10] ++ [30]) = 5
  /\ spread_mean ([0; 10] ++ [10]) <> spread_mean ([0; 10] ++ [30]).
Proof. repeat split; try reflexivity. discriminate. Qed.

(** C4, amended.  For a history of two or more samples (fewer than [2^31]),
    mean and deviation are taken over every sample but the oldest: the
    newest sample is among them and the front of the history is not read.
    The mean is the wrapped sum of those samples over their number; the
    deviation accumulates over the same samples, the newest last; replacing
    the oldest sample changes nothing of the evaluation. *)
Theorem statistics_cover_all_but_the_oldest (oldest : Z) (older : list Z) (newest : Z) :
  size (oldest :: older ++ [newest]) < 2 ^ 31 ->
  spread_mean (oldest :: older ++ [newest])
    = Ok (UInt64.add (sum_entries older) newest / (size older + 1))
  /\ (forall avg,
        spread_stddev (oldest :: older ++ [newest]) avg
        = (let* acc := sum_squares avg older 0 in
           let* _ := accumulate_square avg acc newest in
           Ok 1))
  /\ (forall oldest',
        deterMineOrderStatus (oldest' :: older ++ [newest])
        = deterMineOrderStatus (oldest :: older ++ [newest])).
Proof.
  intros Hsize.
  assert (Hdiv : UInt64.sub (size (oldest :: older ++ [newest])) 1 = size older + 1).
  { rewrite size_cons, size_app. unfold UInt64.sub.
    change (size [newest]) with 1.
    pose proof (size_nonneg older).
    rewrite size_cons, size_app in Hsize. change (size [newest]) with 1 in Hsize.
    replace (size older + 1 + 1 - 1) with (size older + 1) by lia.
    apply wrap_small. unfold UInt64.modulus. lia. }
  assert (Hloop : loop_entries (oldest :: older ++ [newest]) = Ok (older ++ [newest])).
  { unfold loop_entries. destruct (Z.leb_spec (2 ^ 31) (size (oldest :: older ++ [newest])));
      [lia | reflexivity]. }
  assert (Hnz : (size older + 1 =? 0) = false).
  { apply Z.eqb_neq. pose proof (size_nonneg older). lia. }
  split; [|split].
  - unfold spread_mean, spread_mean_with. rewrite Hloop, Hdiv. cbn [res_bind].
    unfold UInt64.div. rewrite Hnz, sum_entries_snoc. reflexivity.
  - intros avg. unfold spread_stddev, spread_stddev_with.
    rewrite Hloop, Hdiv. cbn [res_bind]. rewrite sum_squares_snoc.
    destruct (sum_squares avg older 0) as [acc|why]; cbn [res_bind]; [|reflexivity].
    destruct (accumulate_square avg acc newest) as [sq|why]; cbn [res_bind]; [|reflexivity].
    unfold UInt64.div. rewrite Hnz. cbn [res_bind]. apply root_step_is_one.
  - intros oldest'. apply front_entry_unused.
Qed.

Lemma statistics_cover_all_but_the_oldest_witness :
  spread_mean (0 :: [10] ++ [30]) = Ok (UInt64.add (sum_entries [10]) 30 / (size [10] + 1))
  /\ deterMineOrderStatus (1000 :: [10] ++ [30]) = deterMineOrderStatus (0 :: [10] ++ [30]).
Proof.
  assert (H : size (0 :: [10] ++ [30]) < 2 ^ 31) by (vm_compute; reflexivity).
  destruct (statistics_cover_all_but_the_oldest 0 [10] 30 H) as (Hmean & _ & Hfront).
  split; [exact Hmean | exact (Hfront 1000)].
Defined.

(** *** C7: the classification *)

(** C7, as stated, fails where a threshold leaves the range of the type: with
    a mean of zero and a deviation of one, [mean - deviation] wraps to
    [2^64 - 1] and a newest sample of zero is judged FUTURE_RICH, although
    zero is not below minus one. *)
Lemma classify_below_wrapped_threshold :
  classify 0 0 1 = FUTURE_RICH /\ ~ (0 < 0 - 1 * 1).
Proof. split; [reflexivity | lia]. Qed.

(** C7, amended.  The thresholds are computed on [unsigned long]: the
    verdict is ETF_RICH exactly when the newest sample exceeds
    [(mean + deviation) mod 2^64]; FUTURE_RICH exactly when it does not and
    is below [(mean - deviation) mod 2^64]; NEUTRAL otherwise.  The two rich
    flags are never both set.  When neither threshold wraps the comparisons
    are those of the integers. *)
Theorem classify_by_wrapped_thresholds (newest mean deviation : Z) :
  let upper := (mean + deviation) mod 2 ^ 64 in
  let lower := (mean - deviation) mod 2 ^ 64 in
  let v := classify newest mean deviation in
  (v = ETF_RICH <-> upper < newest)
  /\ (v = FUTURE_RICH <-> newest <= upper /\ newest < lower)
  /\ (v = NEUTRAL <-> lower <= newest <= upper)
  /\ (v_ETF_Much_Greater v && v_FTR_Much_Greater v = false)
  /\ (0 <= deviation <= mean -> mean + deviation < 2 ^ 64 ->
      (v = ETF_RICH <-> newest > mean + 1 * deviation)
      /\ (v = FUTURE_RICH <-> newest < mean - 1 * deviation)
      /\ (v = NEUTRAL <-> mean - 1 * deviation <= newest <= mean + 1 * deviation)).
Proof.
  intros upper lower v.
  assert (Hup : UInt64.add mean (UInt64.mul 1 deviation) = upper).
  { rewrite mul_one, add_wrap_r. reflexivity. }
  assert (Hlo : UInt64.sub mean (UInt64.mul 1 deviation) = lower).
  { rewrite mul_one, sub_wrap_r. reflexivity. }
  assert (Hv : v = if upper <? newest then ETF_RICH
                   else if newest <? lower then FUTURE_RICH else NEUTRAL).
  { subst v. unfold classify. rewrite Hup, Hlo. reflexivity. }
  assert (Hmain : (v = ETF_RICH <-> upper < newest)
                  /\ (v = FUTURE_RICH <-> newest <= upper /\ newest < lower)
                  /\ (v = NEUTRAL <-> lower <= newest <= upper)
                  /\ v_ETF_Much_Greater v && v_FTR_Much_Greater v = false).
  { rewrite Hv.
    destruct (Z.ltb_spec upper newest); [|destruct (Z.ltb_spec newest lower)];
      (repeat split; intros; try discriminate; try reflexivity; try lia). }
  destruct Hmain as (He & Hf & Hn & Hx).
  split; [exact He|]. split; [exact Hf|]. split; [exact Hn|]. split; [exact Hx|].
  intros Hdev Hfit.
  assert (Hu : upper = mean + deviation) by (subst upper; apply Z.mod_small; lia).
  assert (Hl : lower = mean - deviation) by (subst lower; apply Z.mod_small; lia).
  rewrite He, Hf, Hn, Hu, Hl. repeat split; lia.
Qed.

Lemma classify_by_wrapped_thresholds_witness :
  (classify 130 100 1 = ETF_RICH <-> 130 > 100 + 1 * 1)
  /\ (classify 130 100 1 = FUTURE_RICH <-> 130 < 100 - 1 * 1).
Proof.
  destruct (classify_by_wrapped_thresholds 130 100 1) as (_ & _ & _ & _ & H).
  destruct H as (He & Hf & _); [lia | lia |].
  split; [exact He | exact Hf].
Defined.

(** ** The rolling windows *)

Lemma record_midprice_short w m :
  (length w <= 31)%nat -> record_midprice w m = w ++ [m].
Proof.
  intros H. unfold record_midprice, size.
  destruct (Z.leb_spec (Z.of_nat (length w)) 31); [reflexivity | lia].
Qed.

Lemma record_midprice_full w m :
  (32 <= length w)%nat -> record_midprice w m = tl w ++ [m].
Proof.
  intros H. unfold record_midprice, size.
  destruct (Z.leb_spec (Z.of_nat (length w)) 31); [lia | reflexivity].
Qed.

Lemma tl_drop (w : list Z) k : tl (drop k w) = drop (S k) w.
Proof.
  revert k. induction w as [|x w IH]; intros k.
  - destruct k; reflexivity.
  - destruct k as [|k]; [reflexivity|]. cbn [drop]. apply IH.
Qed.

(** Fed one midprice after the other from empty, a window holds the last 32
    of them, in arrival order. *)
Lemma window_keeps_last_32 (ms : list Z) :
  fold_left record_midprice ms [] = drop (length ms - 32) ms.
Proof.
  induction ms as [|m ms IH] using rev_ind; [reflexivity|].
  rewrite fold_left_app. cbn [fold_left]. rewrite IH.
  rewrite length_app. cbn [length].
  destruct (Nat.le_gt_cases (length ms) 31) as [Hle|Hgt].
  - replace (length ms - 32)%nat with 0%nat by lia.
    replace (length ms + 1 - 32)%nat with 0%nat by lia.
    cbn [drop]. apply record_midprice_short. exact Hle.
  - rewrite record_midprice_full by (rewrite length_drop; lia).
    rewrite tl_drop.
    replace (length ms + 1 - 32)%nat with (S (length ms - 32)) by lia.
    rewrite drop_app_le by lia. reflexivity.
Qed.

Lemma window_size_bound (ms : list Z) :
  size (fold_left record_midprice ms []) = Z.min (size ms) 32.
Proof. rewrite window_keeps_last_32. unfold size. rewrite length_drop. lia. Qed.

(** An ETF update appends its midprice to the ETF window by [record_midprice],
    a future update to the future's. *)
Lemma store_ETF_window ap bp s :
  ETF_recent_mp_prices (stats (store_ETF ap bp s))
  = record_midprice (ETF_recent_mp_prices (stats s)) (midprice (top ap) (top bp)).
Proof. reflexivity. Qed.

Lemma store_FTR_window ap bp s :
  FTR_recent_mp_prices (stats (store_FTR ap bp s))
  = record_midprice (FTR_recent_mp_prices (stats s)) (midprice (top ap) (top bp)).
Proof. reflexivity. Qed.

(** C5.  The design fixes the capacity of a window at 30 and the source
    notes "rolling avg for thirty", but the test that guards the eviction is
    [size() <= 31]: a window grows to 32 samples before its oldest one is
    dropped, and from then on holds the last 32 in arrival order.  After 31
    ETF updates with midprices 1 to 31 the ETF window holds all 31 of them;
    after 40 it holds the last 32. *)
Theorem window_grows_past_thirty :
  (forall ms : list Z,
      fold_left record_midprice ms [] = drop (length ms - 32) ms
      /\ size (fold_left record_midprice ms []) = Z.min (size ms) 32)
  /\ (exists s, venue_run (map etf_quote (seqZ 1 31)) idle = Ok (s, [])
                /\ ETF_recent_mp_prices (stats s) = seqZ 1 31
                /\ size (ETF_recent_mp_prices (stats s)) = 31)
  /\ (exists s, venue_run (map etf_quote (seqZ 1 40)) idle = Ok (s, [])
                /\ ETF_recent_mp_prices (stats s) = seqZ 9 32
                /\ size (ETF_recent_mp_prices (stats s)) = 32).
Proof.
  split; [intros ms; split; [apply window_keeps_last_32 | apply window_size_bound]|].
  split; eexists; (split; [vm_compute; reflexivity | split; reflexivity]).
Qed.

(** ** The orders of a market update *)

(** The displayed volumes of a market update play no part in it. *)
Lemma displayed_volumes_unused i ap av av' bp bv bv' s :
  on_market_update i ap av bp bv s = on_market_update i ap av' bp bv' s.
Proof. destruct i; reflexivity. Qed.

(** The insert leg never exceeds the lot size. *)
Lemma lot_le x : lot x <= LOT_SIZE.
Proof. unfold lot. lia. Qed.

(** C6.  The design sizes every order as the smaller of the lot size and the
    volume displayed at the top of the book.  The handlers cap the insert leg
    by the top of [ETF_bid_arr] or [ETF_ask_arr], which hold prices, and the
    hedge leg by [FTR_ask_vol_arr] or [FTR_bid_vol_arr], which no handler
    fills; the volumes of the message are not read.  With one spread sample
    seen, the future at 199 (3 lots) to 201 (5 lots) and then the ETF at 199
    (3 lots) to 200, the trader sells 10 ETF lots where 3 are displayed, and
    hedges with a purchase of 0 future lots where 5 are displayed. *)
Theorem order_volume_ignores_displayed_volume :
  (forall i ap av av' bp bv bv' s,
      on_market_update i ap av bp bv s = on_market_update i ap av' bp bv' s)
  /\ exists s,
       venue_run [future_book; etf_book_below] one_sample_seen
       = Ok (s, [ SendInsertOrder 0 SELL 199 10 GOOD_FOR_DAY;
                  SendHedgeOrder 0 BUY 201 0 (Some GOOD_FOR_DAY) ])
       /\ DIFF_recent_mp_prices (stats s) = [7; 2 ^ 64 - 1].
Proof.
  split; [intros; apply displayed_volumes_unused|].
  eexists. split; [vm_compute; reflexivity | reflexivity].
Qed.

(** ** Fills *)

Lemma of_unsigned_small v : 0 <= v < 2 ^ 63 -> Int64.of_unsigned v = v.
Proof.
  intros H. unfold Int64.of_unsigned.
  destruct (Z.ltb_spec v (2 ^ 63)); [reflexivity | lia].
Qed.

Lemma checked_in_range z : Int64.in_range z -> Int64.checked z = Ok z.
Proof.
  unfold Int64.in_range, Int64.checked. intros [Hlo Hhi].
  destruct (Z.leb_spec Int64.min_signed z); [|lia].
  destruct (Z.leb_spec z Int64.max_signed); [reflexivity|lia].
Qed.

(** The two hedge prices are the outermost ticks inside the venue bounds. *)
Lemma extreme_ticks MINIMUM_BID MAXIMUM_ASK :
  0 <= MINIMUM_BID -> 0 <= MAXIMUM_ASK ->
  (MAX_ASK_NEAREST_TICK MAXIMUM_ASK mod TICK_SIZE_IN_CENTS = 0
   /\ MAX_ASK_NEAREST_TICK MAXIMUM_ASK <= MAXIMUM_ASK
        < MAX_ASK_NEAREST_TICK MAXIMUM_ASK + TICK_SIZE_IN_CENTS)
  /\ (MIN_BID_NEARST_TICK MINIMUM_BID mod TICK_SIZE_IN_CENTS = 0
      /\ MINIMUM_BID < MIN_BID_NEARST_TICK MINIMUM_BID
           <= MINIMUM_BID + TICK_SIZE_IN_CENTS).
Proof.
  intros Hb Ha. unfold MAX_ASK_NEAREST_TICK, MIN_BID_NEARST_TICK, TICK_SIZE_IN_CENTS.
  rewrite !Z.quot_div_nonneg by lia.
  rewrite !Z.mod_mul by lia.
  pose proof (Z.div_mod MAXIMUM_ASK 100 ltac:(lia)) as H1.
  pose proof (Z.mod_pos_bound MAXIMUM_ASK 100 ltac:(lia)) as H2.
  pose proof (Z.div_mod (MINIMUM_BID + 100) 100 ltac:(lia)) as H3.
  pose proof (Z.mod_pos_bound (MINIMUM_BID + 100) 100 ltac:(lia)) as H4.
  lia.
Qed.

(** C8.  A fill of [volume] lots (a volume that fits a [long], on a position
    that stays representable) for an identifier in [mAsks] lowers [mPosition]
    by the volume and sends one hedge purchase of that volume at
    [MAX_ASK_NEAREST_TICK]; for an identifier in [mBids] (and not in
    [mAsks]) it raises [mPosition] by the volume and sends one hedge sale of
    that volume at [MIN_BID_NEARST_TICK]; either way the hedge carries the
    next message identifier and nothing else of the state changes.  A fill for
    an identifier in neither set leaves the state as it is and sends nothing.
    The two prices are the highest tick not above [MAXIMUM_ASK] and the
    lowest tick above [MINIMUM_BID]. *)
Theorem fill_moves_position_and_hedges
    (MINIMUM_BID MAXIMUM_ASK clientOrderId price volume : Z) (s : AutoTrader) :
  0 <= volume < 2 ^ 63 ->
  Int64.in_range (mPosition (pos s) - volume) ->
  Int64.in_range (mPosition (pos s) + volume) ->
  0 <= MINIMUM_BID -> 0 <= MAXIMUM_ASK ->
  (clientOrderId ∈ mAsks (track s) ->
     exists s',
       OrderFilledMessageHandler MINIMUM_BID MAXIMUM_ASK clientOrderId price volume s
       = Ok (s', [SendHedgeOrder (mNextMessageId (track s)) BUY
                    (MAX_ASK_NEAREST_TICK MAXIMUM_ASK) volume None])
       /\ pos s' = Positions (ETF_Pos (pos s)) (FTR_Pos (pos s)) (mPosition (pos s) - volume)
       /\ mNextMessageId (track s') = UInt64.add (mNextMessageId (track s)) 1
       /\ mAsks (track s') = mAsks (track s) /\ mBids (track s') = mBids (track s)
       /\ market s' = market s /\ stats s' = stats s /\ own s' = own s)
  /\ (clientOrderId ∉ mAsks (track s) -> clientOrderId ∈ mBids (track s) ->
     exists s',
       OrderFilledMessageHandler MINIMUM_BID MAXIMUM_ASK clientOrderId price volume s
       = Ok (s', [SendHedgeOrder (mNextMessageId (track s)) SELL
                    (MIN_BID_NEARST_TICK MINIMUM_BID) volume None])
       /\ pos s' = Positions (ETF_Pos (pos s)) (FTR_Pos (pos s)) (mPosition (pos s) + volume)
       /\ mNextMessageId (track s') = UInt64.add (mNextMessageId (track s)) 1
       /\ mAsks (track s') = mAsks (track s) /\ mBids (track s') = mBids (track s)
       /\ market s' = market s /\ stats s' = stats s /\ own s' = own s)
  /\ (clientOrderId ∉ mAsks (track s) -> clientOrderId ∉ mBids (track s) ->
      OrderFilledMessageHandler MINIMUM_BID MAXIMUM_ASK clientOrderId price volume s
      = Ok (s, []))
  /\ (MAX_ASK_NEAREST_TICK MAXIMUM_ASK mod TICK_SIZE_IN_CENTS = 0
      /\ MAX_ASK_NEAREST_TICK MAXIMUM_ASK <= MAXIMUM_ASK
           < MAX_ASK_NEAREST_TICK MAXIMUM_ASK + TICK_SIZE_IN_CENTS)
  /\ (MIN_BID_NEARST_TICK MINIMUM_BID mod TICK_SIZE_IN_CENTS = 0
      /\ MINIMUM_BID < MIN_BID_NEARST_TICK MINIMUM_BID
           <= MINIMUM_BID + TICK_SIZE_IN_CENTS).
Proof.
  intros Hvol Hdown Hup Hbid Hask.
  pose proof (of_unsigned_small volume Hvol) as Hcast.
  split; [|split; [|split]].
  - intros Hin. unfold OrderFilledMessageHandler.
    rewrite bool_decide_eq_true_2 by exact Hin.
    unfold apply_fill. rewrite Hcast.
    replace (mPosition (pos s) + - volume) with (mPosition (pos s) - volume) by lia.
    rewrite (checked_in_range _ Hdown). cbn.
    eexists. split; [reflexivity|]. cbn. repeat split.
  - intros Hnot Hin. unfold OrderFilledMessageHandler.
    rewrite bool_decide_eq_false_2 by exact Hnot.
    rewrite bool_decide_eq_true_2 by exact Hin.
    unfold apply_fill. rewrite Hcast.
    rewrite (checked_in_range _ Hup). cbn.
    eexists. split; [reflexivity|]. cbn. repeat split.
  - intros Hnot Hnot'. unfold OrderFilledMessageHandler.
    rewrite bool_decide_eq_false_2 by exact Hnot.
    rewrite bool_decide_eq_false_2 by exact Hnot'.
    reflexivity.
  - apply extreme_ticks; assumption.
Qed.

Lemma fill_moves_position_and_hedges_witness :
  (exists s',
     OrderFilledMessageHandler 1 2147483647 5 19900 10 tracking_two
     = Ok (s', [SendHedgeOrder 1 BUY 2147483600 10 None])
     /\ pos s' = Positions 0 0 (-10))
  /\ (exists s',
        OrderFilledMessageHandler 1 2147483647 6 20100 10 tracking_two
        = Ok (s', [SendHedgeOrder 1 SELL 100 10 None])
        /\ pos s' = Positions 0 0 10)
  /\ OrderFilledMessageHandler 1 2147483647 7 20100 10 tracking_two
     = Ok (tracking_two, []).
Proof.
  assert (Hvol : 0 <= 10 < 2 ^ 63) by lia.
  assert (Hdown : Int64.in_range (mPosition (pos tracking_two) - 10))
    by (vm_compute; split; discriminate).
  assert (Hup : Int64.in_range (mPosition (pos tracking_two) + 10))
    by (vm_compute; split; discriminate).
  assert (Hbid : 0 <= 1) by lia.
  assert (Hask : 0 <= 2147483647) by lia.
  split; [|split].
  - destruct (fill_moves_position_and_hedges 1 2147483647 5 19900 10 tracking_two
                Hvol Hdown Hup Hbid Hask) as (Hsale & _).
    destruct Hsale as (s' & Hrun & Hpos & _); [vm_compute; reflexivity|].
    exists s'. split; [exact Hrun | exact Hpos].
  - destruct (fill_moves_position_and_hedges 1 2147483647 6 20100 10 tracking_two
                Hvol Hdown Hup Hbid Hask) as (_ & Hbuy & _).
    destruct Hbuy as (s' & Hrun & Hpos & _);
      [ intros H; vm_compute in H; discriminate
      | vm_compute; reflexivity |].
    exists s'. split; [exact Hrun | exact Hpos].
  - destruct (fill_moves_position_and_hedges 1 2147483647 7 20100 10 tracking_two
                Hvol Hdown Hup Hbid Hask) as (_ & _ & Hnone & _).
    apply Hnone; intros H; vm_compute in H; discriminate.
Defined.

(** ** Errors and status updates *)

Lemma is_tracked_error_true id s :
  id <> 0 -> (id ∈ mAsks (track s)) \/ (id ∈ mBids (track s)) ->
  is_tracked_error id s = true.
Proof.
  intros Hnz Hin. unfold is_tracked_error.
  apply andb_true_iff. split.
  - apply negb_true_iff, Z.eqb_neq, Hnz.
  - apply orb_true_iff. destruct Hin as [H|H]; [left|right];
      apply bool_decide_eq_true_2, H.
Qed.

Lemma is_tracked_error_false id s :
  id = 0 \/ ((id ∉ mAsks (track s)) /\ (id ∉ mBids (track s))) ->
  is_tracked_error id s = false.
Proof.
  intros H. unfold is_tracked_error. destruct H as [->|[Ha Hb]]; [reflexivity|].
  rewrite (bool_decide_eq_false_2 _ Ha), (bool_decide_eq_false_2 _ Hb).
  apply andb_false_r.
Qed.

(** What closing an order does to the tracking state. *)
Lemma status_closed id fillVolume fees s :
  let s' := OrderStatusMessageHandler id fillVolume 0 fees s in
  (id ∉ mAsks (track s')) /\ (id ∉ mBids (track s'))
  /\ (forall other, other <> id ->
        (other ∈ mAsks (track s') <-> (other ∈ mAsks (track s)))
        /\ (other ∈ mBids (track s') <-> (other ∈ mBids (track s))))
  /\ (mAskId (track s) = id -> mAskId (track s') = 0 /\ mBidId (track s') = mBidId (track s))
  /\ (mAskId (track s) <> id -> mAskId (track s') = mAskId (track s))
  /\ (mAskId (track s) <> id -> mBidId (track s) = id -> mBidId (track s') = 0)
  /\ (mBidId (track s) <> id -> mBidId (track s') = mBidId (track s))
  /\ mAskID (track s') = mAskID (track s)
  /\ mNextMessageId (track s') = mNextMessageId (track s)
  /\ market s' = market s /\ stats s' = stats s /\ pos s' = pos s /\ own s' = own s.
Proof.
  cbn.
  split; [rewrite elem_of_difference, elem_of_singleton; tauto|].
  split; [rewrite elem_of_difference, elem_of_singleton; tauto|].
  split; [intros other Hne; rewrite !elem_of_difference, !elem_of_singleton; tauto|].
  split.
  { intros <-. rewrite Z.eqb_refl. split; reflexivity. }
  split.
  { intros Hne. destruct (Z.eqb_spec id (mAskId (track s))); [congruence | reflexivity]. }
  split.
  { intros Hne <-. destruct (Z.eqb_spec (mBidId (track s)) (mAskId (track s)));
      [congruence|]. rewrite Z.eqb_refl. reflexivity. }
  split.
  { intros Hne. destruct (Z.eqb_spec id (mAskId (track s))); [reflexivity|].
    destruct (Z.eqb_spec id (mBidId (track s))); [congruence | reflexivity]. }
  repeat split.
Qed.

(** C9.  An error for a nonzero identifier held by [mAsks] or [mBids] is
    handled as the status update (id, 0, 0, 0): the identifier leaves both
    sets, the slot [mAskId] that holds it is reset to zero (otherwise the
    slot [mBidId] if that one holds it), every other identifier stays in
    the sets it was in, a slot holding another identifier keeps it, and
    nothing else of the state changes.  An error for identifier zero or for
    an identifier in neither set leaves the state as it is.  In both cases no
    order is sent. *)
Theorem error_closes_tracked_order_only
    (MINIMUM_BID MAXIMUM_ASK clientOrderId : Z) (s : AutoTrader) :
  let s' := ErrorMessageHandler clientOrderId s in
  (clientOrderId <> 0 ->
   (clientOrderId ∈ mAsks (track s)) \/ (clientOrderId ∈ mBids (track s)) ->
     s' = OrderStatusMessageHandler clientOrderId 0 0 0 s
     /\ (clientOrderId ∉ mAsks (track s')) /\ (clientOrderId ∉ mBids (track s'))
     /\ (forall other, other <> clientOrderId ->
           (other ∈ mAsks (track s') <-> (other ∈ mAsks (track s)))
           /\ (other ∈ mBids (track s') <-> (other ∈ mBids (track s))))
     /\ (mAskId (track s) = clientOrderId ->
           mAskId (track s') = 0 /\ mBidId (track s') = mBidId (track s))
     /\ (mAskId (track s) <> clientOrderId -> mAskId (track s') = mAskId (track s))
     /\ (mAskId (track s) <> clientOrderId -> mBidId (track s) = clientOrderId ->
           mBidId (track s') = 0)
     /\ (mBidId (track s) <> clientOrderId -> mBidId (track s') = mBidId (track s))
     /\ mAskID (track s') = mAskID (track s)
     /\ mNextMessageId (track s') = mNextMessageId (track s)
     /\ market s' = market s /\ stats s' = stats s /\ pos s' = pos s /\ own s' = own s)
  /\ (clientOrderId = 0
      \/ ((clientOrderId ∉ mAsks (track s)) /\ (clientOrderId ∉ mBids (track s))) ->
      s' = s)
  /\ handle MINIMUM_BID MAXIMUM_ASK (ErrorMessage clientOrderId) s = Ok (s', []).
Proof.
  intros s'. split; [|split].
  - intros Hnz Hin.
    assert (Hs : s' = OrderStatusMessageHandler clientOrderId 0 0 0 s).
    { subst s'. unfold ErrorMessageHandler.
      rewrite (is_tracked_error_true _ _ Hnz Hin). reflexivity. }
    split; [exact Hs|]. rewrite Hs. apply status_closed.
  - intros H. subst s'. unfold ErrorMessageHandler.
    rewrite (is_tracked_error_false _ _ H). reflexivity.
  - reflexivity.
Qed.

Lemma error_closes_tracked_order_only_witness :
  (ErrorMessageHandler 6 tracking_two = OrderStatusMessageHandler 6 0 0 0 tracking_two
   /\ (6 ∉ mBids (track (ErrorMessageHandler 6 tracking_two)))
   /\ (5 ∈ mAsks (track (ErrorMessageHandler 6 tracking_two)) <-> (5 ∈ mAsks (track tracking_two)))
   /\ mBidId (track (ErrorMessageHandler 6 tracking_two)) = 0)
  /\ ErrorMessageHandler 9 tracking_two = tracking_two.
Proof.
  split.
  - destruct (error_closes_tracked_order_only 1 2147483647 6 tracking_two) as (Hclose & _).
    destruct Hclose as (Heq & _ & Hout & Hothers & _ & _ & Hslot & _).
    + discriminate.
    + right. vm_compute. reflexivity.
    + split; [exact Heq|]. split; [exact Hout|].
      split; [apply (Hothers 5); discriminate|].
      apply Hslot; [discriminate | reflexivity].
  - destruct (error_closes_tracked_order_only 1 2147483647 9 tracking_two) as (_ & Hkeep & _).
    apply Hkeep. right.
    split; intros H; vm_compute in H; discriminate.
Defined.

(** ** The spread sample *)

Lemma midprice_range a b : 0 <= midprice a b < 2 ^ 63.
Proof.
  unfold midprice, UInt64.add. pose proof (wrap_range (a + b)) as H.
  unfold UInt64.modulus in H.
  split; [apply Z.div_pos; lia | apply Z.div_lt_upper_bound; lia].
Qed.

Lemma newest_of_snoc w m : size w < 2 ^ 63 -> newest_of (w ++ [m]) = Ok m.
Proof.
  intros H. pose proof (size_nonneg w) as H0.
  unfold newest_of. rewrite size_app. change (size [m]) with 1.
  unfold UInt64.sub. replace (size w + 1 - 1) with (size w) by lia.
  rewrite wrap_small by (unfold UInt64.modulus; lia).
  apply at_index_snoc.
Qed.

Lemma newest_of_empty : newest_of [] = Fault IndexOutOfRange.
Proof. reflexivity. Qed.

(** On a window of bounded size [newest_of] reads the last entry. *)
Lemma newest_of_last w x : size w < 2 ^ 63 -> newest_of w = Ok x -> last w = Some x.
Proof.
  destruct w as [|y w _] using rev_ind; intros Hsize Hnew; [discriminate|].
  rewrite size_app in Hsize. change (size [y]) with 1 in Hsize.
  pose proof (size_nonneg w) as H0.
  assert (Hw : size w < 2 ^ 63) by lia.
  rewrite (newest_of_snoc w y Hw) in Hnew.
  rewrite last_snoc. congruence.
Qed.

Lemma record_midprice_snoc w m :
  size w <= 32 ->
  exists w', record_midprice w m = w' ++ [m] /\ size w' <= 31.
Proof.
  intros H. unfold record_midprice.
  destruct (Z.leb_spec (size w) 31).
  - exists w. split; [reflexivity | lia].
  - exists (tl w). split; [reflexivity|].
    destruct w as [|y w]; [change (size []) with 0 in *; lia|].
    rewrite size_cons in H. cbn [tl]. lia.
Qed.

Lemma coherent_store_ETF ap bp s : coherent s -> coherent (store_ETF ap bp s).
Proof.
  intros (He & Hf & Hle & Hlf & Hme & Hmf).
  destruct (record_midprice_snoc (ETF_recent_mp_prices (stats s))
              (midprice (top ap) (top bp)) He) as (w' & Hw & Hsize).
  unfold coherent. cbn. rewrite Hw.
  repeat split; try assumption; try apply midprice_range; try lia.
  - rewrite size_app. change (size [midprice (top ap) (top bp)]) with 1. lia.
  - intros x Hx. rewrite last_snoc in Hx. congruence.
Qed.

Lemma coherent_store_FTR ap bp s : coherent s -> coherent (store_FTR ap bp s).
Proof.
  intros (He & Hf & Hle & Hlf & Hme & Hmf).
  destruct (record_midprice_snoc (FTR_recent_mp_prices (stats s))
              (midprice (top ap) (top bp)) Hf) as (w' & Hw & Hsize).
  unfold coherent. cbn. rewrite Hw.
  repeat split; try assumption; try apply midprice_range; try lia.
  - rewrite size_app. change (size [midprice (top ap) (top bp)]) with 1. lia.
  - intros x Hx. rewrite last_snoc in Hx. congruence.
Qed.

(** Placing orders touches the trader's own book only. *)
Lemma place_orders_frame s :
  market (fst (place_orders s)) = market s
  /\ stats (fst (place_orders s)) = stats s
  /\ pos (fst (place_orders s)) = pos s
  /\ track (fst (place_orders s)) = track s.
Proof.
  unfold place_orders. destruct (may_sell s); [|destruct (may_buy s)];
    repeat split; reflexivity.
Qed.

(** The two ways through [sample_and_evaluate]. *)
Lemma sample_and_evaluate_cases s s' :
  sample_and_evaluate s = Ok s' ->
  s' = s
  \/ exists d v,
       spread_sample (stats s) = Ok d
       /\ deterMineOrderStatus (DIFF_recent_mp_prices (stats s) ++ [d]) = Ok v
       /\ stats s' = Statistics (ETF_recent_mp_prices (stats s))
                       (FTR_recent_mp_prices (stats s))
                       (DIFF_recent_mp_prices (stats s) ++ [d])
                       (v_ETF_Much_Greater v) (v_FTR_Much_Greater v)
       /\ market s' = market s /\ pos s' = pos s /\ track s' = track s
       /\ own s' = own s.
Proof.
  unfold sample_and_evaluate.
  destruct (size (ETF_recent_mp_prices (stats s)) =? size (FTR_recent_mp_prices (stats s)));
    [|intros [= <-]; left; reflexivity].
  destruct (spread_sample (stats s)) as [d|why] eqn:Hd; cbn [res_bind]; [|discriminate].
  destruct (deterMineOrderStatus (DIFF_recent_mp_prices (stats s) ++ [d])) as [v|why] eqn:Hv;
    cbn [res_bind]; [|discriminate].
  intros [= <-]. right. exists d, v.
  split; [reflexivity|]. split; [exact Hv|]. repeat split; reflexivity.
Qed.

Lemma spread_sample_coherent s d :
  coherent s -> spread_sample (stats s) = Ok d ->
  d = (ETF_midprice (market s) - FTR_midprice (market s)) mod 2 ^ 64.
Proof.
  intros (He & Hf & Hle & Hlf & _) Hd. unfold spread_sample in Hd.
  destruct (newest_of (ETF_recent_mp_prices (stats s))) as [e|why] eqn:Hne;
    cbn [res_bind] in Hd; [|discriminate].
  destruct (newest_of (FTR_recent_mp_prices (stats s))) as [f|why] eqn:Hnf;
    cbn [res_bind] in Hd; [|discriminate].
  apply newest_of_last in Hne; [|lia]. apply newest_of_last in Hnf; [|lia].
  rewrite <- (Hle e Hne), <- (Hlf f Hnf). injection Hd as <-. reflexivity.
Qed.

Lemma evaluate_and_trade_sample s s' sent :
  coherent s ->
  evaluate_and_trade s = Ok (s', sent) ->
  DIFF_recent_mp_prices (stats s') <> DIFF_recent_mp_prices (stats s) ->
  market s' = market s
  /\ DIFF_recent_mp_prices (stats s')
     = DIFF_recent_mp_prices (stats s)
       ++ [(ETF_midprice (market s) - FTR_midprice (market s)) mod 2 ^ 64]
  /\ deterMineOrderStatus (DIFF_recent_mp_prices (stats s'))
     = Ok (Verdict (ETF_Much_Greater (stats s')) (FTR_Much_Greater (stats s'))).
Proof.
  intros Hco Hrun Hnew. unfold evaluate_and_trade in Hrun.
  destruct (negb (ETF_midprice (market s) =? 0) && negb (FTR_midprice (market s) =? 0));
    [|injection Hrun as <- <-; congruence].
  destruct (sample_and_evaluate s) as [s1|why] eqn:Heval; cbn [res_bind] in Hrun;
    [|discriminate].
  destruct (place_orders_frame s1) as (Hm & Hs & _).
  assert (Hs' : s' = fst (place_orders s1)) by (injection Hrun as Hp; rewrite Hp; reflexivity).
  rewrite Hs' in *. rewrite Hs in *. rewrite Hm.
  destruct (sample_and_evaluate_cases _ _ Heval) as [->|(d & v & Hd & Hv & Hst & Hmk & _)];
    [congruence|].
  rewrite Hst, Hmk. cbn.
  rewrite <- (spread_sample_coherent s d Hco Hd).
  split; [reflexivity|]. split; [reflexivity|].
  rewrite Hv. destruct v; reflexivity.
Qed.

Lemma wrapped_difference e f :
  0 <= e < 2 ^ 63 -> 0 <= f < 2 ^ 63 ->
  (e < f -> (e - f) mod 2 ^ 64 = 2 ^ 64 - (f - e)
            /\ 2 ^ 63 < (e - f) mod 2 ^ 64 < 2 ^ 64)
  /\ (f <= e -> (e - f) mod 2 ^ 64 = e - f).
Proof.
  intros He Hf. split.
  - intros Hlt. pose proof (wrap_negative (e - f)) as H.
    unfold UInt64.wrap, UInt64.modulus in H. rewrite H by lia. lia.
  - intros Hle. apply Z.mod_small. lia.
Qed.

Lemma coherent_store i ap bp s : coherent s -> coherent (store i ap bp s).
Proof. destruct i; [apply coherent_store_FTR | apply coherent_store_ETF]. Qed.

(** On coherent windows of equal, nonzero size the sample is defined. *)
Lemma spread_sample_defined s :
  coherent s ->
  size (ETF_recent_mp_prices (stats s)) = size (FTR_recent_mp_prices (stats s)) ->
  0 < size (ETF_recent_mp_prices (stats s)) ->
  spread_sample (stats s)
  = Ok ((ETF_midprice (market s) - FTR_midprice (market s)) mod 2 ^ 64).
Proof.
  intros (He & Hf & Hle & Hlf & _) Heq Hpos. unfold spread_sample.
  destruct (ETF_recent_mp_prices (stats s)) as [|e we _] using rev_ind;
    [change (size []) with 0 in Hpos; lia|].
  destruct (FTR_recent_mp_prices (stats s)) as [|f wf _] using rev_ind;
    [change (size []) with 0 in Heq; lia|].
  rewrite !size_app in *. change (size [e]) with 1 in *. change (size [f]) with 1 in *.
  rewrite !newest_of_snoc by lia. cbn [res_bind].
  rewrite <- (Hle e (last_snoc _ _)), <- (Hlf f (last_snoc _ _)). reflexivity.
Qed.

Lemma store_window_nonempty i ap bp s :
  size (ETF_recent_mp_prices (stats s)) <= 32 ->
  size (FTR_recent_mp_prices (stats s)) <= 32 ->
  size (ETF_recent_mp_prices (stats (store i ap bp s)))
  = size (FTR_recent_mp_prices (stats (store i ap bp s))) ->
  0 < size (ETF_recent_mp_prices (stats (store i ap bp s))).
Proof.
  intros He Hf. destruct i; cbn [store]; intros Heq.
  - rewrite Heq. rewrite store_FTR_window.
    destruct (record_midprice_snoc (FTR_recent_mp_prices (stats s))
                (midprice (top ap) (top bp)) Hf) as (w & -> & _).
    rewrite size_app. pose proof (size_nonneg w). change (size [_]) with 1. lia.
  - rewrite store_ETF_window.
    destruct (record_midprice_snoc (ETF_recent_mp_prices (stats s))
                (midprice (top ap) (top bp)) He) as (w & -> & _).
    rewrite size_app. pose proof (size_nonneg w). change (size [_]) with 1. lia.
Qed.

(** The wrapped running sum is the sum of the integers reduced once. *)
Lemma fold_add_wrapped xs : forall a,
  fold_left (fun acc x => UInt64.add acc x) xs (UInt64.wrap a)
  = (a + fold_right Z.add 0 xs) mod 2 ^ 64.
Proof.
  induction xs as [|x xs IH]; intros a; cbn [fold_left fold_right].
  - rewrite Z.add_0_r. reflexivity.
  - rewrite add_wrap_l. unfold UInt64.add at 2. rewrite IH. f_equal. lia.
Qed.

Lemma sum_entries_wrapped xs : sum_entries xs = fold_right Z.add 0 xs mod 2 ^ 64.
Proof. unfold sum_entries. exact (fold_add_wrapped xs 0). Qed.

(** The flags of a comparison against a deviation of one, written out. *)
Lemma classify_flags newest avg :
  v_ETF_Much_Greater (classify newest avg 1) = ((avg + 1) mod 2 ^ 64 <? newest)
  /\ v_FTR_Much_Greater (classify newest avg 1)
     = negb ((avg + 1) mod 2 ^ 64 <? newest) && (newest <? (avg - 1) mod 2 ^ 64).
Proof.
  unfold classify. rewrite mul_one. change (UInt64.wrap 1) with 1.
  unfold UInt64.add, UInt64.sub, UInt64.wrap, UInt64.modulus.
  destruct ((avg + 1) mod 2 ^ 64 <? newest); [split; reflexivity|].
  destruct (newest <? (avg - 1) mod 2 ^ 64); split; reflexivity.
Qed.

(** An evaluation that returns, on a history that ends with the sample [d]:
    there are earlier samples, the mean is the wrapped sum of every sample
    but the oldest over their number, the squares of the wrapped distances
    to it were accumulated without leaving the type, that of [d] last, and
    the verdict compares [d] with that mean and a deviation of one. *)
Lemma evaluation_written_out h d v :
  deterMineOrderStatus (h ++ [d]) = Ok v ->
  h <> []
  /\ let avg := ((fold_right Z.add 0 (tl h) + d) mod 2 ^ 64) / size h in
     v = classify d avg 1
     /\ exists before squares,
          sum_squares avg (tl h) 0 = Ok before
          /\ Double.to_ulong
               (Double.add (Double.of_ulong before)
                  (Double.pow (Double.of_ulong ((avg - d) mod 2 ^ 64)) 2))
             = Ok squares.
Proof.
  destruct h as [|oldest older]; cbn [app tl].
  - rewrite one_entry_divides_by_zero. discriminate.
  - intros Hv. split; [discriminate|].
    unfold deterMineOrderStatus, deterMineOrderStatus_with, spread_mean_with,
      spread_stddev_with, loop_entries in Hv.
    destruct (Z.leb_spec (2 ^ 31) (size (oldest :: older ++ [d]))) as [Hbig|Hsmall];
      [discriminate Hv|].
    cbn [res_bind tl] in Hv.
    pose proof (size_nonneg older) as Hn.
    assert (Hsz : size (oldest :: older ++ [d]) = size older + 1 + 1)
      by (rewrite size_cons, size_app; reflexivity).
    assert (Hdiv : UInt64.sub (size (oldest :: older ++ [d])) 1 = size (oldest :: older)).
    { rewrite Hsz, size_cons. unfold UInt64.sub.
      replace (size older + 1 + 1 - 1) with (size older + 1) by lia.
      apply wrap_small. unfold UInt64.modulus. lia. }
    rewrite Hdiv in Hv. unfold UInt64.div in Hv.
    assert (Hnz : (size (oldest :: older) =? 0) = false)
      by (apply Z.eqb_neq; rewrite size_cons; lia).
    rewrite Hnz in Hv. cbn [res_bind] in Hv.
    assert (Hsum : sum_entries (older ++ [d])
                   = (fold_right Z.add 0 older + d) mod 2 ^ 64).
    { rewrite sum_entries_snoc, sum_entries_wrapped.
      exact (add_wrap_l (fold_right Z.add 0 older) d). }
    rewrite Hsum in Hv.
    set (avg := (fold_right Z.add 0 older + d) mod 2 ^ 64 / size (oldest :: older)) in *.
    destruct (sum_squares avg (older ++ [d]) 0) as [squares|why] eqn:Hsq;
      cbn [res_bind] in Hv; [|discriminate Hv].
    rewrite root_step_is_one in Hv. cbn [res_bind] in Hv.
    assert (Hlast : UInt32.wrap (size (oldest :: older)) = size (oldest :: older)).
    { rewrite size_cons in *. unfold UInt32.wrap, UInt32.modulus. apply Z.mod_small. lia. }
    rewrite Hlast in Hv.
    change (oldest :: older ++ [d]) with ((oldest :: older) ++ [d]) in Hv.
    rewrite at_index_snoc in Hv. cbn [res_bind] in Hv. injection Hv as <-.
    split; [reflexivity|].
    rewrite sum_squares_snoc in Hsq.
    destruct (sum_squares avg older 0) as [before|why] eqn:Hbefore;
      cbn [res_bind] in Hsq; [|discriminate Hsq].
    exists before, squares. split; [reflexivity | exact Hsq].
Qed.

(** C10.  Whenever a market update appends a spread sample, the sample is
    the ETF midprice minus the future's midprice reduced modulo [2^64]: when
    the future's midprice is the larger one, the sample is [2^64] minus the
    gap, above [2^63], not a negative number.  The sample is defined
    whenever the two windows have the same size after the update.  When the
    update completes, the history has grown by that sample, and the
    evaluation has worked on the wrapped values: the mean is the sum of the
    stored samples but the oldest, reduced modulo [2^64], over their number;
    the squared distances to it are taken on the differences reduced modulo
    [2^64], in binary64, and their running sum has stayed within
    [unsigned long], the distance of the new sample included; and the flags
    are the comparisons of the wrapped sample with the mean plus one and the
    mean minus one, both reduced modulo [2^64] in their turn. *)
Theorem spread_sample_is_wrapped_difference i ap av bp bv s :
  coherent s ->
  let s1 := store i ap bp s in
  let e := ETF_midprice (market s1) in
  let f := FTR_midprice (market s1) in
  let d := (e - f) mod 2 ^ 64 in
  (size (ETF_recent_mp_prices (stats s1)) = size (FTR_recent_mp_prices (stats s1)) ->
   spread_sample (stats s1) = Ok d)
  /\ (e < f -> d = 2 ^ 64 - (f - e) /\ 2 ^ 63 < d < 2 ^ 64)
  /\ (f <= e -> d = e - f)
  /\ (forall s' sent,
        on_market_update i ap av bp bv s = Ok (s', sent) ->
        DIFF_recent_mp_prices (stats s') <> DIFF_recent_mp_prices (stats s) ->
        market s' = market s1
        /\ DIFF_recent_mp_prices (stats s') = DIFF_recent_mp_prices (stats s) ++ [d]
        /\ deterMineOrderStatus (DIFF_recent_mp_prices (stats s'))
           = Ok (Verdict (ETF_Much_Greater (stats s')) (FTR_Much_Greater (stats s')))
        /\ DIFF_recent_mp_prices (stats s) <> []
        /\ let history := DIFF_recent_mp_prices (stats s) in
           let mean := ((fold_right Z.add 0 (tl history) + d) mod 2 ^ 64) / size history in
           ETF_Much_Greater (stats s') = ((mean + 1) mod 2 ^ 64 <? d)
           /\ FTR_Much_Greater (stats s')
              = negb ((mean + 1) mod 2 ^ 64 <? d) && (d <? (mean - 1) mod 2 ^ 64)
           /\ (exists before squares,
                 sum_squares mean (tl history) 0 = Ok before
                 /\ Double.to_ulong
                      (Double.add (Double.of_ulong before)
                         (Double.pow (Double.of_ulong ((mean - d) mod 2 ^ 64)) 2))
                    = Ok squares))
  /\ match i with
     | ETF => e = midprice (top ap) (top bp) /\ f = FTR_midprice (market s)
     | FUTURE => f = midprice (top ap) (top bp) /\ e = ETF_midprice (market s)
     end.
Proof.
  intros Hco s1 e f d.
  pose proof (coherent_store i ap bp s Hco) as Hco1. fold s1 in Hco1.
  assert (Hranges : 0 <= e < 2 ^ 63 /\ 0 <= f < 2 ^ 63)
    by (destruct Hco1 as (_ & _ & _ & _ & Hre & Hrf); split; assumption).
  destruct (wrapped_difference e f (proj1 Hranges) (proj2 Hranges)) as (Hlt & Hge).
  split; [|split; [exact Hlt|split; [exact Hge|split]]].
  - intros Heq. apply spread_sample_defined; [exact Hco1 | exact Heq |].
    destruct Hco as (He & Hf & _).
    exact (store_window_nonempty i ap bp s He Hf Heq).
  - intros s' sent Hrun Hnew. unfold on_market_update in Hrun. fold s1 in Hrun.
    assert (Hdiff : DIFF_recent_mp_prices (stats s1) = DIFF_recent_mp_prices (stats s))
      by (subst s1; destruct i; reflexivity).
    destruct (evaluate_and_trade_sample s1 s' sent Hco1 Hrun) as (Hm & Hd & Hv);
      [congruence|].
    fold e f d in Hd. rewrite Hdiff in Hd.
    split; [exact Hm|]. split; [exact Hd|]. split; [exact Hv|].
    rewrite Hd in Hv.
    destruct (evaluation_written_out _ _ _ Hv) as (Hne & Hclass & Hsq).
    split; [exact Hne|].
    set (history := DIFF_recent_mp_prices (stats s)) in *.
    set (mean := (fold_right Z.add 0 (tl history) + d) mod 2 ^ 64 / size history) in *.
    cbv zeta.
    destruct (classify_flags d mean) as (Hef & Hff).
    rewrite <- Hclass in Hef, Hff. cbn [v_ETF_Much_Greater v_FTR_Much_Greater] in Hef, Hff.
    split; [exact Hef|]. split; [exact Hff | exact Hsq].
  - subst e f s1. destruct i; split; reflexivity.
Qed.

Lemma spread_sample_is_wrapped_difference_witness :
  spread_sample (stats (store ETF (lv 200) (lv 199) future_seen)) = Ok (2 ^ 64 - 1)
  /\ DIFF_recent_mp_prices (stats sold_below) = [7] ++ [2 ^ 64 - 1]
  /\ ETF_Much_Greater (stats sold_below)
     = ((((0 + (2 ^ 64 - 1)) mod 2 ^ 64) / 1 + 1) mod 2 ^ 64 <? 2 ^ 64 - 1)
  /\ FTR_Much_Greater (stats sold_below) = false.
Proof.
  assert (Hrun : on_market_update ETF (lv 200) (lv 5) (lv 199) (lv 3) future_seen
                 = Ok (sold_below,
                       [ SendInsertOrder 0 SELL 199 10 GOOD_FOR_DAY;
                         SendHedgeOrder 0 BUY 201 0 (Some GOOD_FOR_DAY) ]))
    by (vm_compute; reflexivity).
  assert (Hnew : DIFF_recent_mp_prices (stats sold_below)
                 <> DIFF_recent_mp_prices (stats future_seen))
    by (vm_compute; discriminate).
  assert (Hco : coherent future_seen).
  { split; [vm_compute; discriminate|]. split; [vm_compute; discriminate|].
    split; [intros x H; vm_compute in H; discriminate|].
    split; [intros x H; vm_compute in H; injection H as <-; reflexivity|].
    split; (split; [vm_compute; discriminate | vm_compute; reflexivity]). }
  destruct (spread_sample_is_wrapped_difference ETF (lv 200) (lv 5) (lv 199) (lv 3)
              future_seen Hco) as (Hsample & _ & _ & Hdone & _).
  destruct (Hdone _ _ Hrun Hnew) as (_ & Hd & _ & _ & Hetf & Hftr & _).
  split; [apply Hsample; vm_compute; reflexivity|].
  split; [exact Hd|]. split; [exact Hetf | exact Hftr].
Defined.

(** ** Positions *)


Lemma may_buy_headroom s :
  Int64.in_range (ETF_Pos (pos s)) ->
  UInt64.in_range (top (ETF_bid_arr (market s))) ->
  may_buy s = true ->
  0 <= ETF_Pos (pos s) + lot (top (ETF_bid_arr (market s))) < POSITION_LIMIT.
Proof.
  unfold Int64.in_range, Int64.min_signed, Int64.max_signed, UInt64.in_range,
    UInt64.modulus, POSITION_LIMIT.
  intros HP Hb Hbuy. unfold may_buy in Hbuy.
  apply andb_true_iff in Hbuy as [_ Hcmp]. apply Z.ltb_lt in Hcmp.
  set (v := lot (top (ETF_bid_arr (market s)))) in *.
  assert (Hv : 0 <= v <= 10) by (subst v; unfold lot, LOT_SIZE; lia).
  unfold Int64.to_unsigned in Hcmp. rewrite add_wrap_l in Hcmp. unfold UInt64.add in Hcmp.
  destruct (Z.lt_ge_cases (ETF_Pos (pos s) + v) 0) as [Hneg|Hpos].
  - rewrite wrap_negative in Hcmp by (unfold UInt64.modulus; lia).
    unfold UInt64.modulus in Hcmp. lia.
  - rewrite wrap_small in Hcmp by (unfold UInt64.modulus; lia). lia.
Qed.


(** A market update leaves snapshots, positions and tracking as the store
    step left them, and sends what [place_orders] decides, if anything. *)
Lemma evaluate_and_trade_frame s s' sent :
  evaluate_and_trade s = Ok (s', sent) ->
  market s' = market s /\ pos s' = pos s /\ track s' = track s
  /\ (sent = []
      \/ exists s1, market s1 = market s /\ pos s1 = pos s
                    /\ sent = snd (place_orders s1)).
Proof.
  unfold evaluate_and_trade.
  destruct (negb (ETF_midprice (market s) =? 0) && negb (FTR_midprice (market s) =? 0)).
  - destruct (sample_and_evaluate s) as [s1|why] eqn:Heval; cbn [res_bind]; [|discriminate].
    intros [= Hp]. destruct (place_orders_frame s1) as (Hm & _ & Hpos & Htr).
    assert (Hs1 : market s1 = market s /\ pos s1 = pos s /\ track s1 = track s).
    { destruct (sample_and_evaluate_cases _ _ Heval)
        as [->|(d & v & _ & _ & _ & Hmk & Hps & Htk & _)]; repeat split; assumption. }
    destruct Hs1 as (Hm1 & Hp1 & Ht1).
    rewrite Hp in Hm, Hpos, Htr. cbn [fst] in Hm, Hpos, Htr.
    repeat split; try congruence.
    right. exists s1. rewrite Hp. repeat split; assumption.
  - intros [= <- <-]. repeat split. left. reflexivity.
Qed.


Lemma store_keeps_books i ap bp s :
  books_in_range s ->
  UInt64.in_range (top ap) /\ UInt64.in_range (top bp) ->
  books_in_range (match i with
                  | ETF => store_ETF ap bp s
                  | FUTURE => store_FTR ap bp s
                  end).
Proof.
  intros (Ha & Hb & Hfa & Hfb) (Hap & Hbp).
  destruct i; (split; [|split; [|split]]);
    first [exact Ha | exact Hb | exact Hfa | exact Hfb | exact Hap | exact Hbp].
Qed.


Lemma status_keeps_untracked id f r fees s :
  untracked s -> untracked (OrderStatusMessageHandler id f r fees s).
Proof.
  intros (Ha & Hb). unfold OrderStatusMessageHandler, untracked.
  destruct (r =? 0); [|split; assumption].
  cbn. rewrite Ha, Hb. split; apply empty_difference_L.
Qed.


Lemma error_keeps_untracked id s : untracked s -> untracked (ErrorMessageHandler id s).
Proof.
  intros H. unfold ErrorMessageHandler.
  destruct (is_tracked_error id s); [apply status_keeps_untracked|]; exact H.
Qed.


Lemma fill_untracked MINIMUM_BID MAXIMUM_ASK id price volume s :
  untracked s ->
  OrderFilledMessageHandler MINIMUM_BID MAXIMUM_ASK id price volume s = Ok (s, []).
Proof.
  intros (Ha & Hb). unfold OrderFilledMessageHandler. rewrite Ha, Hb.
  rewrite !bool_decide_eq_false_2 by apply not_elem_of_empty. reflexivity.
Qed.





(** ** Coherence along runs *)

Lemma coherent_idle : coherent idle.
Proof.
  unfold coherent. cbn.
  split; [vm_compute; discriminate|]. split; [vm_compute; discriminate|].
  split; [intros x H; discriminate|]. split; [intros x H; discriminate|].
  split; lia.
Qed.

Lemma coherent_same s s' :
  market s' = market s ->
  ETF_recent_mp_prices (stats s') = ETF_recent_mp_prices (stats s) ->
  FTR_recent_mp_prices (stats s') = FTR_recent_mp_prices (stats s) ->
  coherent s -> coherent s'.
Proof. unfold coherent. intros -> -> ->. tauto. Qed.

Lemma coherent_evaluate_and_trade s s' sent :
  coherent s -> evaluate_and_trade s = Ok (s', sent) -> coherent s'.
Proof.
  intros Hco Hrun. unfold evaluate_and_trade in Hrun.
  destruct (negb (ETF_midprice (market s) =? 0) && negb (FTR_midprice (market s) =? 0));
    [|injection Hrun as <- _; exact Hco].
  destruct (sample_and_evaluate s) as [s1|why] eqn:Heval; cbn [res_bind] in Hrun;
    [|discriminate].
  injection Hrun as Hp. destruct (place_orders_frame s1) as (Hm & Hs & _).
  rewrite Hp in Hm, Hs. cbn [fst] in Hm, Hs.
  assert (Hco1 : coherent s1).
  { destruct (sample_and_evaluate_cases _ _ Heval) as [->|(d & v & _ & _ & Hst & Hmk & _)];
      [exact Hco|].
    apply (coherent_same s); [exact Hmk | rewrite Hst; reflexivity
                             | rewrite Hst; reflexivity | exact Hco]. }
  apply (coherent_same s1); [exact Hm | rewrite Hs; reflexivity
                            | rewrite Hs; reflexivity | exact Hco1].
Qed.

Lemma coherent_handle MINIMUM_BID MAXIMUM_ASK c s s' sent :
  coherent s -> handle MINIMUM_BID MAXIMUM_ASK c s = Ok (s', sent) -> coherent s'.
Proof.
  intros Hco Hrun. destruct c; cbn [handle] in Hrun.
  - destruct instrument; cbn in Hrun;
      (eapply coherent_evaluate_and_trade; [|exact Hrun]);
      [apply coherent_store_FTR | apply coherent_store_ETF]; exact Hco.
  - destruct instrument; cbn in Hrun;
      (eapply coherent_evaluate_and_trade; [|exact Hrun]);
      [apply coherent_store_FTR | apply coherent_store_ETF]; exact Hco.
  - unfold OrderFilledMessageHandler in Hrun.
    destruct (bool_decide (clientOrderId ∈ mAsks (track s)));
      [|destruct (bool_decide (clientOrderId ∈ mBids (track s)))].
    + unfold apply_fill in Hrun.
      destruct (Int64.checked _) as [p|why]; cbn in Hrun; [|discriminate].
      injection Hrun as <- _. exact Hco.
    + unfold apply_fill in Hrun.
      destruct (Int64.checked _) as [p|why]; cbn in Hrun; [|discriminate].
      injection Hrun as <- _. exact Hco.
    + injection Hrun as <- _. exact Hco.
  - injection Hrun as <- _. unfold OrderStatusMessageHandler.
    destruct (remainingVolume =? 0); exact Hco.
  - injection Hrun as <- _. exact Hco.
  - injection Hrun as <- _. unfold ErrorMessageHandler, OrderStatusMessageHandler.
    destruct (is_tracked_error clientOrderId s); exact Hco.
  - injection Hrun as <- _. exact Hco.
Qed.

(** Every state a run reaches from start-up is coherent. *)
Lemma coherent_run MINIMUM_BID MAXIMUM_ASK cs : forall s s' sent,
  coherent s -> run MINIMUM_BID MAXIMUM_ASK cs s = Ok (s', sent) -> coherent s'.
Proof.
  induction cs as [|c cs IH]; intros s s' sent Hco Hrun.
  - injection Hrun as <- _. exact Hco.
  - cbn [run] in Hrun.
    destruct (handle MINIMUM_BID MAXIMUM_ASK c s) as [[s1 sent1]|why] eqn:Hstep;
      cbn [res_bind] in Hrun; [|discriminate].
    destruct (run MINIMUM_BID MAXIMUM_ASK cs s1) as [[s2 sent2]|why] eqn:Hrest;
      cbn [res_bind] in Hrun; [|discriminate].
    injection Hrun as <- _.
    exact (IH _ _ _ (coherent_handle _ _ _ _ _ _ Hco Hstep) Hrest).
Qed.

(** * Further properties of the handlers *)

(** ** Runs compose *)

Lemma run_app MINIMUM_BID MAXIMUM_ASK cs1 cs2 : forall s,
  run MINIMUM_BID MAXIMUM_ASK (cs1 ++ cs2) s
  = (let* (s1, sent1) := run MINIMUM_BID MAXIMUM_ASK cs1 s in
     let* (s2, sent2) := run MINIMUM_BID MAXIMUM_ASK cs2 s1 in
     Ok (s2, sent1 ++ sent2)).
Proof.
  induction cs1 as [|c cs1 IH]; intros s; cbn [app run res_bind].
  - destruct (run MINIMUM_BID MAXIMUM_ASK cs2 s) as [[s2 sent2]|why]; reflexivity.
  - destruct (handle MINIMUM_BID MAXIMUM_ASK c s) as [[s1 sent1]|why]; cbn [res_bind];
      [|reflexivity].
    rewrite IH.
    destruct (run MINIMUM_BID MAXIMUM_ASK cs1 s1) as [[s2 sent2]|why]; cbn [res_bind];
      [|reflexivity].
    destruct (run MINIMUM_BID MAXIMUM_ASK cs2 s2) as [[s3 sent3]|why]; cbn [res_bind];
      [|reflexivity].
    rewrite app_assoc. reflexivity.
Qed.

Lemma informational_handle MINIMUM_BID MAXIMUM_ASK c s :
  informational c = true -> handle MINIMUM_BID MAXIMUM_ASK c s = Ok (s, []).
Proof.
  destruct c; cbn [informational handle]; intros Hc; try discriminate Hc.
  - unfold OrderStatusMessageHandler. apply negb_true_iff in Hc. rewrite Hc. reflexivity.
  - reflexivity.
  - apply Z.eqb_eq in Hc. subst clientOrderId. reflexivity.
Qed.

(** X1.  A hedge fill, a status update that leaves volume to trade and an
    error for identifier zero are observed and nothing more: taken out of a
    sequence of callbacks, wherever they stand, they leave the outcome of the
    sequence (final state, orders sent, or the fault) as it was. *)
Theorem informational_callbacks_can_be_dropped
    (MINIMUM_BID MAXIMUM_ASK : Z) (before after : list callback) (c : callback)
    (s : AutoTrader) :
  informational c = true ->
  run MINIMUM_BID MAXIMUM_ASK (before ++ c :: after) s
  = run MINIMUM_BID MAXIMUM_ASK (before ++ after) s.
Proof.
  intros Hc. rewrite !run_app.
  destruct (run MINIMUM_BID MAXIMUM_ASK before s) as [[s1 sent1]|why]; cbn [res_bind];
    [|reflexivity].
  cbn [run]. rewrite (informational_handle _ _ c s1 Hc). cbn [res_bind].
  destruct (run MINIMUM_BID MAXIMUM_ASK after s1) as [[s2 sent2]|why]; reflexivity.
Qed.

Lemma informational_callbacks_can_be_dropped_witness :
  venue_run ([future_book] ++ OrderStatusMessage 0 4 6 0 :: [etf_book_below]) one_sample_seen
  = venue_run ([future_book] ++ [etf_book_below]) one_sample_seen.
Proof.
  apply (informational_callbacks_can_be_dropped 1 2147483647
           [future_book] [etf_book_below] (OrderStatusMessage 0 4 6 0) one_sample_seen).
  reflexivity.
Defined.

(** ** What a run leaves alone *)

Lemma later_refl s : later s s.
Proof.
  unfold later. repeat split; try reflexivity.
  exists []. rewrite app_nil_r. reflexivity.
Qed.

Lemma later_trans s1 s2 s3 : later s1 s2 -> later s2 s3 -> later s1 s3.
Proof.
  intros (Ha & Hb & Hid & Ht & He & Hf & Hav & Hbv & (x & Hx))
         (Ha' & Hb' & Hid' & Ht' & He' & Hf' & Hav' & Hbv' & (y & Hy)).
  unfold later.
  split; [etransitivity; eassumption|]. split; [etransitivity; eassumption|].
  split; [congruence|]. split; [congruence|]. split; [congruence|].
  split; [congruence|]. split; [congruence|]. split; [congruence|].
  exists (x ++ y). rewrite Hy, Hx, app_assoc. reflexivity.
Qed.

Lemma evaluate_and_trade_history s s' sent :
  evaluate_and_trade s = Ok (s', sent) ->
  DIFF_recent_mp_prices (stats s') = DIFF_recent_mp_prices (stats s)
  \/ exists d, DIFF_recent_mp_prices (stats s') = DIFF_recent_mp_prices (stats s) ++ [d].
Proof.
  unfold evaluate_and_trade.
  destruct (negb (ETF_midprice (market s) =? 0) && negb (FTR_midprice (market s) =? 0));
    [|intros [= <- _]; left; reflexivity].
  destruct (sample_and_evaluate s) as [s1|why] eqn:Heval; cbn [res_bind]; [|discriminate].
  intros [= Hp]. destruct (place_orders_frame s1) as (_ & Hs & _).
  rewrite Hp in Hs. cbn [fst] in Hs. rewrite Hs.
  destruct (sample_and_evaluate_cases _ _ Heval) as [->|(d & v & _ & _ & Hst & _)];
    [left; reflexivity|].
  right. exists d. rewrite Hst. reflexivity.
Qed.

Lemma fill_frame MINIMUM_BID MAXIMUM_ASK id price volume s s' sent :
  OrderFilledMessageHandler MINIMUM_BID MAXIMUM_ASK id price volume s = Ok (s', sent) ->
  market s' = market s /\ stats s' = stats s /\ own s' = own s
  /\ mAsks (track s') = mAsks (track s) /\ mBids (track s') = mBids (track s)
  /\ mAskID (track s') = mAskID (track s) /\ ETF_tempID (track s') = ETF_tempID (track s)
  /\ mAskId (track s') = mAskId (track s) /\ mBidId (track s') = mBidId (track s)
  /\ ETF_Pos (pos s') = ETF_Pos (pos s) /\ FTR_Pos (pos s') = FTR_Pos (pos s).
Proof.
  unfold OrderFilledMessageHandler, apply_fill.
  destruct (bool_decide (id ∈ mAsks (track s)));
    [|destruct (bool_decide (id ∈ mBids (track s)))].
  - destruct (Int64.checked _) as [p|why]; cbn; [|discriminate].
    intros [= <- _]. repeat split.
  - destruct (Int64.checked _) as [p|why]; cbn; [|discriminate].
    intros [= <- _]. repeat split.
  - intros [= <- _]. repeat split.
Qed.

Lemma status_later id f r fees s : later s (OrderStatusMessageHandler id f r fees s).
Proof.
  unfold OrderStatusMessageHandler. destruct (r =? 0); [|apply later_refl].
  unfold later. cbn.
  split; [apply subseteq_difference_l; reflexivity|].
  split; [apply subseteq_difference_l; reflexivity|].
  repeat split; try reflexivity.
  exists []. rewrite app_nil_r. reflexivity.
Qed.

Lemma handle_later MINIMUM_BID MAXIMUM_ASK c s s' sent :
  handle MINIMUM_BID MAXIMUM_ASK c s = Ok (s', sent) -> later s s'.
Proof.
  assert (Hmarket : forall i ap av bp bv,
             on_market_update i ap av bp bv s = Ok (s', sent) -> later s s').
  { intros i ap av bp bv Hrun. unfold on_market_update in Hrun.
    destruct (evaluate_and_trade_frame _ _ _ Hrun) as (Hm & Hp & Ht & _).
    pose proof (evaluate_and_trade_history _ _ _ Hrun) as Hd.
    unfold later. rewrite Hm, Hp, Ht.
    assert (Hs1 : track (store i ap bp s) = track s /\ pos (store i ap bp s) = pos s
                  /\ FTR_ask_vol_arr (market (store i ap bp s)) = FTR_ask_vol_arr (market s)
                  /\ FTR_bid_vol_arr (market (store i ap bp s)) = FTR_bid_vol_arr (market s)
                  /\ DIFF_recent_mp_prices (stats (store i ap bp s))
                     = DIFF_recent_mp_prices (stats s))
      by (destruct i; repeat split; reflexivity).
    destruct Hs1 as (-> & -> & -> & -> & Hd1). rewrite Hd1 in Hd.
    repeat split; try reflexivity.
    destruct Hd as [->|(d & ->)]; [exists []; rewrite app_nil_r | exists [d]]; reflexivity. }
  destruct c; cbn [handle]; intros Hrun.
  - exact (Hmarket instrument askPrices askVolumes bidPrices bidVolumes Hrun).
  - exact (Hmarket instrument askPrices askVolumes bidPrices bidVolumes Hrun).
  - destruct (fill_frame _ _ _ _ _ _ _ _ Hrun)
      as (Hm & Hs & _ & Ha & Hb & Hid & Ht & _ & _ & He & Hf).
    unfold later. rewrite Hm, Hs, Ha, Hb, Hid, Ht, He, Hf.
    repeat split; try reflexivity. exists []. rewrite app_nil_r. reflexivity.
  - injection Hrun as <- _. apply status_later.
  - injection Hrun as <- _. apply later_refl.
  - injection Hrun as <- _. unfold ErrorMessageHandler.
    destruct (is_tracked_error clientOrderId s); [apply status_later | apply later_refl].
  - injection Hrun as <- _. apply later_refl.
Qed.

Lemma run_later MINIMUM_BID MAXIMUM_ASK cs : forall s s' sent,
  run MINIMUM_BID MAXIMUM_ASK cs s = Ok (s', sent) -> later s s'.
Proof.
  induction cs as [|c cs IH]; intros s s' sent Hrun.
  - injection Hrun as <- _. apply later_refl.
  - cbn [run] in Hrun.
    destruct (handle MINIMUM_BID MAXIMUM_ASK c s) as [[s1 sent1]|why] eqn:Hstep;
      cbn [res_bind] in Hrun; [|discriminate].
    destruct (run MINIMUM_BID MAXIMUM_ASK cs s1) as [[s2 sent2]|why] eqn:Hrest;
      cbn [res_bind] in Hrun; [|discriminate].
    injection Hrun as <- _.
    exact (later_trans _ _ _ (handle_later _ _ _ _ _ _ Hstep) (IH _ _ _ Hrest)).
Qed.

(** ** The position limit along runs *)

(** What [place_orders] has tested before an insert order goes out, and
    where the order's price and volume come from. *)
Lemma place_orders_insert s id side price volume lifespan :
  In (SendInsertOrder id side price volume lifespan) (snd (place_orders s)) ->
  match side with
  | SELL => may_sell s = true
            /\ price = ETF_bestBid (market s)
            /\ volume = lot (top (ETF_bid_arr (market s)))
  | BUY => may_sell s = false /\ may_buy s = true
           /\ price = ETF_bestAsk (market s)
           /\ volume = lot (top (ETF_ask_arr (market s)))
  end.
Proof.
  unfold place_orders.
  destruct (may_sell s) eqn:Hsell; [|destruct (may_buy s) eqn:Hbuy];
    cbn [snd sell_ETF_buy_FTR buy_ETF_sell_FTR].
  - intros [H|[H|[]]]; [|discriminate H].
    injection H as _ <- <- <- _. repeat split.
  - intros [H|[H|[]]]; [|discriminate H].
    injection H as _ <- <- <- _. repeat split.
  - intros [].
Qed.

Lemma lot_range x : UInt64.in_range x -> 0 <= lot x <= LOT_SIZE.
Proof. unfold UInt64.in_range, lot, LOT_SIZE. lia. Qed.









(** X2.  No callback ever adds an identifier to [mAsks] or [mBids]: along
    any completed run the two sets can only lose members, so a trader that
    tracks no order never tracks one, and the identifier [mAskID] under which
    market updates send is never changed. *)
Theorem tracked_orders_never_grow
    (MINIMUM_BID MAXIMUM_ASK : Z) (cs : list callback) (s s' : AutoTrader)
    (sent : list order) :
  run MINIMUM_BID MAXIMUM_ASK cs s = Ok (s', sent) ->
  mAsks (track s') ⊆ mAsks (track s)
  /\ mBids (track s') ⊆ mBids (track s)
  /\ (untracked s -> untracked s')
  /\ mAskID (track s') = mAskID (track s).
Proof.
  intros Hrun. destruct (run_later _ _ _ _ _ _ Hrun) as (Ha & Hb & Hid & _).
  split; [exact Ha|]. split; [exact Hb|]. split; [|exact Hid].
  intros (Hea & Heb). unfold untracked. rewrite Hea in Ha. rewrite Heb in Hb.
  split; apply equiv_empty_L; [rewrite Ha | rewrite Hb]; reflexivity.
Qed.

Lemma tracked_orders_never_grow_witness :
  mAsks (track (state_after [OrderFilledMessage 5 199 10; OrderStatusMessage 5 10 0 0;
                             ErrorMessage 7] tracking_two))
    ⊆ mAsks (track tracking_two)
  /\ mAskID (track (state_after [OrderFilledMessage 5 199 10; OrderStatusMessage 5 10 0 0;
                                ErrorMessage 7] tracking_two))
     = mAskID (track tracking_two).
Proof.
  assert (Hrun : run 1 2147483647
                   [OrderFilledMessage 5 199 10; OrderStatusMessage 5 10 0 0; ErrorMessage 7]
                   tracking_two
                 = Ok (state_after [OrderFilledMessage 5 199 10; OrderStatusMessage 5 10 0 0;
                                    ErrorMessage 7] tracking_two,
                       [SendHedgeOrder 1 BUY 2147483600 10 None]))
    by (vm_compute; reflexivity).
  destruct (tracked_orders_never_grow 1 2147483647 _ _ _ _ Hrun) as (Ha & _ & _ & Hid).
  split; [exact Ha | exact Hid].
Defined.

(** X3.  The counters [ETF_Pos] and [FTR_Pos] are written by no callback,
    fills included: a completed run ends with the values it started with.
    The two headroom tests read [ETF_Pos] only and not [mPosition], the
    counter fills move, so no fill changes what they answer. *)
Theorem instrument_positions_never_move
    (MINIMUM_BID MAXIMUM_ASK : Z) (cs : list callback) (s s' : AutoTrader)
    (sent : list order) :
  run MINIMUM_BID MAXIMUM_ASK cs s = Ok (s', sent) ->
  ETF_Pos (pos s') = ETF_Pos (pos s)
  /\ FTR_Pos (pos s') = FTR_Pos (pos s)
  /\ (forall id price volume s1 s2 out,
        OrderFilledMessageHandler MINIMUM_BID MAXIMUM_ASK id price volume s1 = Ok (s2, out) ->
        may_sell s2 = may_sell s1 /\ may_buy s2 = may_buy s1).
Proof.
  intros Hrun. destruct (run_later _ _ _ _ _ _ Hrun) as (_ & _ & _ & _ & He & Hf & _).
  split; [exact He|]. split; [exact Hf|].
  intros id price volume s1 s2 out Hfill.
  destruct (fill_frame _ _ _ _ _ _ _ _ Hfill) as (Hm & Hs & _ & _ & _ & _ & _ & _ & _ & Hp & _).
  unfold may_sell, may_buy. rewrite Hm, Hs, Hp. split; reflexivity.
Qed.

Lemma instrument_positions_never_move_witness :
  ETF_Pos (pos (state_after (fills 3 5 199 10) tracking_two)) = ETF_Pos (pos tracking_two)
  /\ mPosition (pos (state_after (fills 3 5 199 10) tracking_two)) = -30.
Proof.
  assert (Hrun : run 1 2147483647 (fills 3 5 199 10) tracking_two
                 = Ok (state_after (fills 3 5 199 10) tracking_two,
                       [ SendHedgeOrder 1 BUY 2147483600 10 None;
                         SendHedgeOrder 2 BUY 2147483600 10 None;
                         SendHedgeOrder 3 BUY 2147483600 10 None ]))
    by (vm_compute; reflexivity).
  destruct (instrument_positions_never_move 1 2147483647 _ _ _ _ Hrun) as (He & _).
  split; [exact He | reflexivity].
Defined.

(** ** The spread history *)

Lemma handle_history MINIMUM_BID MAXIMUM_ASK c s s' sent :
  handle MINIMUM_BID MAXIMUM_ASK c s = Ok (s', sent) ->
  exists appended,
    DIFF_recent_mp_prices (stats s') = DIFF_recent_mp_prices (stats s) ++ appended
    /\ (length appended <= if is_market_update c then 1 else 0)%nat.
Proof.
  assert (Hmarket : forall i ap av bp bv,
             on_market_update i ap av bp bv s = Ok (s', sent) ->
             exists appended,
               DIFF_recent_mp_prices (stats s')
               = DIFF_recent_mp_prices (stats s) ++ appended
               /\ (length appended <= 1)%nat).
  { intros i ap av bp bv Hrun. unfold on_market_update in Hrun.
    destruct (evaluate_and_trade_history _ _ _ Hrun) as [Hd|(d & Hd)]; rewrite Hd.
    - exists []. rewrite app_nil_r. split; [destruct i; reflexivity | cbn; lia].
    - exists [d]. split; [destruct i; reflexivity | cbn; lia]. }
  assert (Hsame : stats s' = stats s ->
                  exists appended,
                    DIFF_recent_mp_prices (stats s')
                    = DIFF_recent_mp_prices (stats s) ++ appended
                    /\ (length appended <= 0)%nat).
  { intros ->. exists []. rewrite app_nil_r. split; [reflexivity | cbn; lia]. }
  destruct c; cbn [handle is_market_update]; intros Hrun.
  - exact (Hmarket instrument askPrices askVolumes bidPrices bidVolumes Hrun).
  - exact (Hmarket instrument askPrices askVolumes bidPrices bidVolumes Hrun).
  - apply Hsame. destruct (fill_frame _ _ _ _ _ _ _ _ Hrun) as (_ & Hs & _). exact Hs.
  - apply Hsame. injection Hrun as <- _. unfold OrderStatusMessageHandler.
    destruct (remainingVolume =? 0); reflexivity.
  - apply Hsame. injection Hrun as <- _. reflexivity.
  - apply Hsame. injection Hrun as <- _.
    unfold ErrorMessageHandler, OrderStatusMessageHandler.
    destruct (is_tracked_error clientOrderId s); reflexivity.
  - apply Hsame. injection Hrun as <- _. reflexivity.
Qed.

(** X4.  The spread history is never shortened: no callback evicts a sample
    from [DIFF_recent_mp_prices], unlike the two price windows.  A completed
    run leaves the history it found extended by at most one sample per
    market update. *)
Theorem spread_history_only_grows
    (MINIMUM_BID MAXIMUM_ASK : Z) (cs : list callback) : forall (s s' : AutoTrader)
    (sent : list order),
  run MINIMUM_BID MAXIMUM_ASK cs s = Ok (s', sent) ->
  exists appended,
    DIFF_recent_mp_prices (stats s') = DIFF_recent_mp_prices (stats s) ++ appended
    /\ (length appended <= length (List.filter is_market_update cs))%nat.
Proof.
  induction cs as [|c cs IH]; intros s s' sent Hrun.
  - injection Hrun as <- _. exists []. rewrite app_nil_r. split; [reflexivity | cbn; lia].
  - cbn [run] in Hrun.
    destruct (handle MINIMUM_BID MAXIMUM_ASK c s) as [[s1 sent1]|why] eqn:Hstep;
      cbn [res_bind] in Hrun; [|discriminate].
    destruct (run MINIMUM_BID MAXIMUM_ASK cs s1) as [[s2 sent2]|why] eqn:Hrest;
      cbn [res_bind] in Hrun; [|discriminate].
    injection Hrun as <- _.
    destruct (handle_history _ _ _ _ _ _ Hstep) as (x & Hx & Hlx).
    destruct (IH _ _ _ Hrest) as (y & Hy & Hly).
    exists (x ++ y). split; [rewrite Hy, Hx, app_assoc; reflexivity|].
    rewrite length_app. cbn [List.filter].
    destruct (is_market_update c); cbn [length]; lia.
Qed.

Lemma spread_history_only_grows_witness :
  exists appended,
    DIFF_recent_mp_prices (stats (state_after session one_sample_seen))
    = DIFF_recent_mp_prices (stats one_sample_seen) ++ appended
    /\ (length appended <= length (List.filter is_market_update session))%nat.
Proof.
  apply (spread_history_only_grows 1 2147483647 session one_sample_seen
           (state_after session one_sample_seen)
           [ SendInsertOrder 0 SELL 199 10 GOOD_FOR_DAY;
             SendHedgeOrder 0 BUY 201 0 (Some GOOD_FOR_DAY) ]).
  vm_compute. reflexivity.
Defined.

(** ** The orders of a market update, again *)

Lemma market_update_orders i ap av bp bv s s' sent :
  on_market_update i ap av bp bv s = Ok (s', sent) ->
  sent = []
  \/ exists side,
       sent = [ SendInsertOrder (mAskID (track s)) side
                  (match side with
                   | SELL => ETF_bestBid (market s')
                   | BUY => ETF_bestAsk (market s')
                   end)
                  (lot (top (match side with
                             | SELL => ETF_bid_arr (market s')
                             | BUY => ETF_ask_arr (market s')
                             end)))
                  GOOD_FOR_DAY;
                SendHedgeOrder (mAskID (track s)) (opposite side)
                  (match side with
                   | SELL => FTR_bestAsk (market s')
                   | BUY => FTR_bestBid (market s')
                   end)
                  (lot (top (match side with
                             | SELL => FTR_ask_vol_arr (market s)
                             | BUY => FTR_bid_vol_arr (market s)
                             end)))
                  (Some GOOD_FOR_DAY) ]
       /\ match side with
          | SELL => ETF_Much_Greater (stats s') = true
          | BUY => FTR_Much_Greater (stats s') = true
          end.
Proof.
  unfold on_market_update, evaluate_and_trade.
  set (s1 := store i ap bp s).
  assert (Hs1 : track s1 = track s
                /\ FTR_ask_vol_arr (market s1) = FTR_ask_vol_arr (market s)
                /\ FTR_bid_vol_arr (market s1) = FTR_bid_vol_arr (market s))
    by (subst s1; destruct i; repeat split; reflexivity).
  destruct Hs1 as (Ht1 & Hav1 & Hbv1).
  destruct (negb (ETF_midprice (market s1) =? 0) && negb (FTR_midprice (market s1) =? 0));
    [|intros [= _ <-]; left; reflexivity].
  destruct (sample_and_evaluate s1) as [s2|why] eqn:Heval; cbn [res_bind]; [|discriminate].
  assert (Hs2 : market s2 = market s1 /\ track s2 = track s1).
  { destruct (sample_and_evaluate_cases _ _ Heval)
      as [->|(d & v & _ & _ & _ & Hmk & _ & Htk & _)]; split; congruence. }
  destruct Hs2 as (Hm2 & Ht2).
  unfold place_orders.
  destruct (may_sell s2) eqn:Hsell; [|destruct (may_buy s2) eqn:Hbuy].
  - intros [= <- <-]. right. exists SELL. cbn.
    rewrite Ht2, Ht1, Hm2, Hav1. split; [reflexivity|].
    unfold may_sell in Hsell. apply andb_true_iff in Hsell as [Hflag _]. exact Hflag.
  - intros [= <- <-]. right. exists BUY. cbn.
    rewrite Ht2, Ht1, Hm2, Hbv1. split; [reflexivity|].
    unfold may_buy in Hbuy. apply andb_true_iff in Hbuy as [Hflag _]. exact Hflag.
  - intros [= _ <-]. left. reflexivity.
Qed.

(** X5.  A market update that completes sends either nothing or exactly two
    orders: an insert order on the ETF and, after it, a hedge order on the
    future on the opposite side, both good for the day, both under the
    identifier [mAskID], each for at most [LOT_SIZE] lots.  A sale of the ETF
    is priced at the ETF's best bid and hedged at the future's best ask, and
    is sent only with [ETF_Much_Greater] set; a purchase is priced at the
    ETF's best ask and hedged at the future's best bid, and is sent only with
    [FTR_Much_Greater] set. *)
Theorem market_update_sends_a_pair_or_nothing i ap av bp bv s s' sent :
  on_market_update i ap av bp bv s = Ok (s', sent) ->
  sent = []
  \/ exists side price volume hedge_price hedge_volume,
       sent = [ SendInsertOrder (mAskID (track s)) side price volume GOOD_FOR_DAY;
                SendHedgeOrder (mAskID (track s)) (opposite side) hedge_price hedge_volume
                  (Some GOOD_FOR_DAY) ]
       /\ volume <= LOT_SIZE /\ hedge_volume <= LOT_SIZE
       /\ match side with
          | SELL => price = ETF_bestBid (market s')
                    /\ hedge_price = FTR_bestAsk (market s')
                    /\ ETF_Much_Greater (stats s') = true
          | BUY => price = ETF_bestAsk (market s')
                   /\ hedge_price = FTR_bestBid (market s')
                   /\ FTR_Much_Greater (stats s') = true
          end.
Proof.
  intros Hrun. destruct (market_update_orders _ _ _ _ _ _ _ _ Hrun) as [->|(side & -> & Hflag)];
    [left; reflexivity|].
  right. eexists side, _, _, _, _. split; [reflexivity|].
  split; [apply lot_le|]. split; [apply lot_le|].
  destruct side; repeat split; assumption.
Qed.

Lemma market_update_sends_a_pair_or_nothing_witness :
  exists side price volume hedge_price hedge_volume,
    [ SendInsertOrder 0 SELL 199 10 GOOD_FOR_DAY;
      SendHedgeOrder 0 BUY 201 0 (Some GOOD_FOR_DAY) ]
    = [ SendInsertOrder (mAskID (track future_seen)) side price volume GOOD_FOR_DAY;
        SendHedgeOrder (mAskID (track future_seen)) (opposite side) hedge_price hedge_volume
          (Some GOOD_FOR_DAY) ]
    /\ volume <= LOT_SIZE /\ hedge_volume <= LOT_SIZE.
Proof.
  assert (Hrun : on_market_update ETF (lv 200) (lv 5) (lv 199) (lv 3) future_seen
                 = Ok (sold_below,
                       [ SendInsertOrder 0 SELL 199 10 GOOD_FOR_DAY;
                         SendHedgeOrder 0 BUY 201 0 (Some GOOD_FOR_DAY) ]))
    by (vm_compute; reflexivity).
  destruct (market_update_sends_a_pair_or_nothing _ _ _ _ _ _ _ _ Hrun)
    as [Hnone|(side & price & volume & hp & hv & Hsent & Hv & Hhv & _)];
    [discriminate Hnone|].
  exists side, price, volume, hp, hv. split; [exact Hsent|]. split; assumption.
Defined.

Lemma sent_under_later s s' o : later s s' -> sent_under s' o -> sent_under s o.
Proof.
  intros (_ & _ & Hid & _ & _ & _ & Hav & Hbv & _).
  destruct o as [id side price volume l|id side price volume [l|]]; cbn;
    rewrite ?Hid, ?Hav, ?Hbv; tauto.
Qed.

Lemma handle_sent_under MINIMUM_BID MAXIMUM_ASK c s s' sent :
  handle MINIMUM_BID MAXIMUM_ASK c s = Ok (s', sent) -> Forall (sent_under s) sent.
Proof.
  assert (Hmarket : forall i ap av bp bv,
             on_market_update i ap av bp bv s = Ok (s', sent) -> Forall (sent_under s) sent).
  { intros i ap av bp bv Hrun.
    destruct (market_update_orders _ _ _ _ _ _ _ _ Hrun) as [->|(side & -> & _)];
      [apply Forall_nil; exact I|].
    apply Forall_cons. split; [|apply Forall_cons; split; [|apply Forall_nil; exact I]].
    - cbn. split; [reflexivity|]. split; [reflexivity | apply lot_le].
    - destruct side; cbn; repeat split; reflexivity. }
  destruct c; cbn [handle]; intros Hrun;
    try (injection Hrun as _ <-; apply Forall_nil; exact I).
  - exact (Hmarket instrument askPrices askVolumes bidPrices bidVolumes Hrun).
  - exact (Hmarket instrument askPrices askVolumes bidPrices bidVolumes Hrun).
  - unfold OrderFilledMessageHandler, apply_fill in Hrun.
    destruct (bool_decide (clientOrderId ∈ mAsks (track s)));
      [|destruct (bool_decide (clientOrderId ∈ mBids (track s)))].
    + destruct (Int64.checked _) as [p|why]; cbn in Hrun; [|discriminate].
      injection Hrun as _ <-. apply Forall_cons. split; [exact I | apply Forall_nil; exact I].
    + destruct (Int64.checked _) as [p|why]; cbn in Hrun; [|discriminate].
      injection Hrun as _ <-. apply Forall_cons. split; [exact I | apply Forall_nil; exact I].
    + injection Hrun as _ <-. apply Forall_nil. exact I.
Qed.

(** X6.  Within one run every order a market update sends, insert leg or
    hedge leg, carries the same client order identifier, the [mAskID] the
    run started with, and every hedge leg on one side has the same volume,
    the lot of the volume array the run started with: neither the identifier
    nor [FTR_ask_vol_arr] / [FTR_bid_vol_arr] is ever assigned.  Insert legs
    never exceed [LOT_SIZE]. *)
Theorem market_orders_share_one_identifier
    (MINIMUM_BID MAXIMUM_ASK : Z) (cs : list callback) : forall (s s' : AutoTrader)
    (sent : list order),
  run MINIMUM_BID MAXIMUM_ASK cs s = Ok (s', sent) ->
  Forall (sent_under s) sent.
Proof.
  induction cs as [|c cs IH]; intros s s' sent Hrun.
  - injection Hrun as _ <-. apply Forall_nil. exact I.
  - cbn [run] in Hrun.
    destruct (handle MINIMUM_BID MAXIMUM_ASK c s) as [[s1 sent1]|why] eqn:Hstep;
      cbn [res_bind] in Hrun; [|discriminate].
    destruct (run MINIMUM_BID MAXIMUM_ASK cs s1) as [[s2 sent2]|why] eqn:Hrest;
      cbn [res_bind] in Hrun; [|discriminate].
    injection Hrun as _ <-.
    apply Forall_app. split; [exact (handle_sent_under _ _ _ _ _ _ Hstep)|].
    eapply Forall_impl; [exact (IH _ _ _ Hrest)|].
    intros o. apply sent_under_later. exact (handle_later _ _ _ _ _ _ Hstep).
Qed.

Lemma market_orders_share_one_identifier_witness :
  Forall (sent_under one_sample_seen)
    [ SendInsertOrder 0 SELL 199 10 GOOD_FOR_DAY;
      SendHedgeOrder 0 BUY 201 0 (Some GOOD_FOR_DAY);
      SendInsertOrder 0 SELL 199 10 GOOD_FOR_DAY;
      SendHedgeOrder 0 BUY 201 0 (Some GOOD_FOR_DAY) ].
Proof.
  apply (market_orders_share_one_identifier 1 2147483647
           [future_book; etf_book_below; etf_book_below] one_sample_seen
           (state_after [future_book; etf_book_below; etf_book_below] one_sample_seen)).
  vm_compute. reflexivity.
Defined.

(** ** Repeated fills and closings *)

Lemma fill_tracked_ask MINIMUM_BID MAXIMUM_ASK id price volume s :
  id ∈ mAsks (track s) ->
  0 <= volume < 2 ^ 63 ->
  Int64.in_range (mPosition (pos s) - volume) ->
  OrderFilledMessageHandler MINIMUM_BID MAXIMUM_ASK id price volume s
  = Ok (snd (next_message_id
               (with_pos (Positions (ETF_Pos (pos s)) (FTR_Pos (pos s))
                            (mPosition (pos s) - volume)) s)),
        [SendHedgeOrder (mNextMessageId (track s)) BUY
           (MAX_ASK_NEAREST_TICK MAXIMUM_ASK) volume None]).
Proof.
  intros Hin Hvol Hrange. unfold OrderFilledMessageHandler, apply_fill.
  rewrite bool_decide_eq_true_2 by exact Hin.
  rewrite (of_unsigned_small volume Hvol).
  replace (mPosition (pos s) + - volume) with (mPosition (pos s) - volume) by lia.
  rewrite (checked_in_range _ Hrange). reflexivity.
Qed.

(** X7.  The fill handler applies every fill it is given for a tracked sale
    and checks no limit: [n] fills of [volume] lots for an identifier in
    [mAsks] lower [mPosition] by [n * volume] (as long as that fits a
    [long]), leave the identifier tracked, and send [n] hedge purchases of
    [volume] lots at [MAX_ASK_NEAREST_TICK] under consecutive message
    identifiers. *)
Theorem fills_accumulate_without_limit
    (MINIMUM_BID MAXIMUM_ASK id price volume : Z) (n : nat) : forall s : AutoTrader,
  id ∈ mAsks (track s) ->
  0 <= volume < 2 ^ 63 ->
  Int64.in_range (mPosition (pos s)) ->
  Int64.in_range (mPosition (pos s) - Z.of_nat n * volume) ->
  exists s',
    run MINIMUM_BID MAXIMUM_ASK (fills n id price volume) s
    = Ok (s', map (fun k => SendHedgeOrder k BUY (MAX_ASK_NEAREST_TICK MAXIMUM_ASK)
                              volume None)
                (message_ids (mNextMessageId (track s)) n))
    /\ mPosition (pos s') = mPosition (pos s) - Z.of_nat n * volume
    /\ mAsks (track s') = mAsks (track s).
Proof.
  induction n as [|n IH]; intros s Hin Hvol Hnow Hend.
  - exists s. cbn. split; [reflexivity|]. split; [lia | reflexivity].
  - unfold Int64.in_range, Int64.min_signed, Int64.max_signed in *.
    assert (Hstep : Int64.in_range (mPosition (pos s) - volume))
      by (unfold Int64.in_range, Int64.min_signed, Int64.max_signed; nia).
    set (s1 := snd (next_message_id
                      (with_pos (Positions (ETF_Pos (pos s)) (FTR_Pos (pos s))
                                   (mPosition (pos s) - volume)) s))).
    destruct (IH s1) as (s' & Hrun & Hpos & Hasks).
    + exact Hin.
    + exact Hvol.
    + cbn. lia.
    + cbn. nia.
    + exists s'. cbn [fills repeat run handle message_ids map].
      rewrite (fill_tracked_ask _ _ _ _ _ _ Hin Hvol Hstep). cbn [res_bind]. fold s1.
      unfold fills in Hrun. rewrite Hrun. cbn [res_bind].
      split; [reflexivity|]. split; [rewrite Hpos; cbn; lia | exact Hasks].
Qed.

Lemma fills_accumulate_without_limit_witness :
  exists s',
    run 1 2147483647 (fills 11 5 199 10) tracking_two
    = Ok (s', map (fun k => SendHedgeOrder k BUY 2147483600 10 None)
                (message_ids 1 11))
    /\ mPosition (pos s') = - 110
    /\ POSITION_LIMIT < Z.abs (mPosition (pos s')).
Proof.
  assert (Hin : 5 ∈ mAsks (track tracking_two)) by (vm_compute; reflexivity).
  assert (Hvol : 0 <= 10 < 2 ^ 63) by lia.
  assert (Hnow : Int64.in_range (mPosition (pos tracking_two)))
    by (vm_compute; split; discriminate).
  assert (Hend : Int64.in_range (mPosition (pos tracking_two) - Z.of_nat 11 * 10))
    by (vm_compute; split; discriminate).
  destruct (fills_accumulate_without_limit 1 2147483647 5 199 10 11 tracking_two
              Hin Hvol Hnow Hend) as (s' & Hrun & Hpos & _).
  exists s'. split; [exact Hrun|]. split; [exact Hpos|].
  rewrite Hpos. vm_compute. reflexivity.
Defined.

(** X8.  Closing an order twice is closing it once, unless both slots hold
    its identifier: a second status update with nothing remaining for the
    same identifier changes nothing more, provided [mAskId] and [mBidId] do
    not both equal it.  (When they both do, the first update resets
    [mAskId] only and a second one resets [mBidId].) *)
Theorem closing_twice_is_closing_once
    (id fillVolume fees fillVolume' fees' : Z) (s : AutoTrader) :
  ~ (mAskId (track s) = id /\ mBidId (track s) = id /\ id <> 0) ->
  OrderStatusMessageHandler id fillVolume' 0 fees'
    (OrderStatusMessageHandler id fillVolume 0 fees s)
  = OrderStatusMessageHandler id fillVolume 0 fees s.
Proof.
  intros Hslots. unfold OrderStatusMessageHandler. cbn.
  unfold with_track. cbn. rewrite !difference_twice_L.
  repeat match goal with
         | |- context [Z.eqb ?a ?b] => destruct (Z.eqb_spec a b)
         end;
    try reflexivity; try congruence;
    exfalso; apply Hslots; repeat split; congruence.
Qed.

Lemma closing_twice_is_closing_once_witness :
  OrderStatusMessageHandler 6 0 0 0 (OrderStatusMessageHandler 6 10 0 0 tracking_two)
  = OrderStatusMessageHandler 6 10 0 0 tracking_two.
Proof.
  apply (closing_twice_is_closing_once 6 10 0 0 0 tracking_two).
  intros (Ha & _). vm_compute in Ha. discriminate Ha.
Defined.

(** ** Midprices *)

(** X9.  For a bid and an ask whose sum fits an [unsigned long], the
    midprice lies between the two and is zero only when they sum to at most
    one; so a book with one empty side (price zero) and a price of two or
    more on the other has a nonzero midprice and passes the test
    [midprice != 0] that guards the trading block. *)
Theorem midprice_between_bid_and_ask (bestAsk bestBid : Z) :
  0 <= bestAsk -> 0 <= bestBid -> bestAsk + bestBid < 2 ^ 64 ->
  midprice bestAsk bestBid = (bestAsk + bestBid) / 2
  /\ Z.min bestAsk bestBid <= midprice bestAsk bestBid <= Z.max bestAsk bestBid
  /\ (midprice bestAsk bestBid = 0 <-> bestAsk + bestBid <= 1).
Proof.
  intros Ha Hb Hsum. unfold midprice, UInt64.add.
  rewrite wrap_small by (unfold UInt64.modulus; lia).
  pose proof (Z.div_mod (bestAsk + bestBid) 2 ltac:(lia)) as Hdm.
  pose proof (Z.mod_pos_bound (bestAsk + bestBid) 2 ltac:(lia)) as Hm.
  split; [reflexivity|]. split; [lia|]. split; intros H; lia.
Qed.

Lemma midprice_between_bid_and_ask_witness :
  midprice 200 0 = (200 + 0) / 2
  /\ (midprice 200 0 = 0 <-> 200 + 0 <= 1).
Proof.
  destruct (midprice_between_bid_and_ask 200 0) as (Hmid & _ & Hzero); [lia | lia | lia |].
  split; [exact Hmid | exact Hzero].
Defined.

(** ** The trader's own book *)

Lemma place_orders_in_step s :
  in_step (own s) ->
  in_step (own (fst (place_orders s)))
  /\ (length (my_ETF_ask_arr (own (fst (place_orders s))))
      + length (my_ETF_bid_arr (own (fst (place_orders s)))))%nat
     = (length (my_ETF_ask_arr (own s)) + length (my_ETF_bid_arr (own s))
        + count_inserts (snd (place_orders s)))%nat.
Proof.
  unfold in_step. intros (H1 & H2 & H3 & H4 & H5 & H6 & H7 & H8 & H9).
  unfold place_orders.
  destruct (may_sell s); [|destruct (may_buy s)]; cbn; rewrite ?length_app; cbn;
    repeat split; lia.
Qed.

Lemma handle_in_step MINIMUM_BID MAXIMUM_ASK c s s' sent :
  in_step (own s) ->
  handle MINIMUM_BID MAXIMUM_ASK c s = Ok (s', sent) ->
  in_step (own s')
  /\ (length (my_ETF_ask_arr (own s')) + length (my_ETF_bid_arr (own s')))%nat
     = (length (my_ETF_ask_arr (own s)) + length (my_ETF_bid_arr (own s))
        + count_inserts sent)%nat.
Proof.
  intros Hstep.
  assert (Hmarket : forall i ap av bp bv,
             on_market_update i ap av bp bv s = Ok (s', sent) ->
             in_step (own s')
             /\ (length (my_ETF_ask_arr (own s')) + length (my_ETF_bid_arr (own s')))%nat
                = (length (my_ETF_ask_arr (own s)) + length (my_ETF_bid_arr (own s))
                   + count_inserts sent)%nat).
  { intros i ap av bp bv Hrun. unfold on_market_update, evaluate_and_trade in Hrun.
    set (s1 := store i ap bp s) in *.
    assert (Ho1 : own s1 = own s) by (subst s1; destruct i; reflexivity).
    destruct (negb (ETF_midprice (market s1) =? 0) && negb (FTR_midprice (market s1) =? 0)).
    - destruct (sample_and_evaluate s1) as [s2|why] eqn:Heval; cbn [res_bind] in Hrun;
        [|discriminate].
      assert (Ho2 : own s2 = own s).
      { destruct (sample_and_evaluate_cases _ _ Heval)
          as [->|(d & v & _ & _ & _ & _ & _ & _ & Ho)]; congruence. }
      injection Hrun as Hp.
      assert (Hstep2 : in_step (own s2)) by (rewrite Ho2; exact Hstep).
      destruct (place_orders_in_step s2 Hstep2) as (Hin & Hcount).
      rewrite Hp in Hin, Hcount. cbn [fst snd] in Hin, Hcount. rewrite Ho2 in Hcount.
      split; assumption.
    - injection Hrun as <- <-. rewrite Ho1. split; [exact Hstep | cbn; lia]. }
  assert (Hsame : own s' = own s -> count_inserts sent = 0%nat ->
                  in_step (own s')
                  /\ (length (my_ETF_ask_arr (own s')) + length (my_ETF_bid_arr (own s')))%nat
                     = (length (my_ETF_ask_arr (own s)) + length (my_ETF_bid_arr (own s))
                        + count_inserts sent)%nat).
  { intros -> ->. split; [exact Hstep | lia]. }
  destruct c; cbn [handle]; intros Hrun.
  - exact (Hmarket instrument askPrices askVolumes bidPrices bidVolumes Hrun).
  - exact (Hmarket instrument askPrices askVolumes bidPrices bidVolumes Hrun).
  - apply Hsame.
    + destruct (fill_frame _ _ _ _ _ _ _ _ Hrun) as (_ & _ & Ho & _). exact Ho.
    + unfold OrderFilledMessageHandler, apply_fill in Hrun.
      destruct (bool_decide (clientOrderId ∈ mAsks (track s)));
        [|destruct (bool_decide (clientOrderId ∈ mBids (track s)))].
      * destruct (Int64.checked _) as [p|why]; cbn in Hrun; [|discriminate].
        injection Hrun as _ <-. reflexivity.
      * destruct (Int64.checked _) as [p|why]; cbn in Hrun; [|discriminate].
        injection Hrun as _ <-. reflexivity.
      * injection Hrun as _ <-. reflexivity.
  - injection Hrun as <- <-. apply Hsame; [|reflexivity].
    unfold OrderStatusMessageHandler. destruct (remainingVolume =? 0); reflexivity.
  - injection Hrun as <- <-. apply Hsame; reflexivity.
  - injection Hrun as <- <-. apply Hsame; [|reflexivity].
    unfold ErrorMessageHandler, OrderStatusMessageHandler.
    destruct (is_tracked_error clientOrderId s); [destruct (0 =? 0)|]; reflexivity.
  - injection Hrun as <- <-. apply Hsame; reflexivity.
Qed.

Lemma count_inserts_app a b :
  count_inserts (a ++ b) = (count_inserts a + count_inserts b)%nat.
Proof. unfold count_inserts. rewrite List.filter_app, length_app. reflexivity. Qed.

(** X10.  The trader's own book grows by one entry per list for every pair
    of orders sent and is changed by nothing else: the lists of a sale (price,
    identifier, volume and the hedge's price and volume) always have one
    length, those of a purchase another, their total is the number of insert
    orders sent so far, and [my_FTR_ask_ids], which both branches extend,
    is as long as the two together.  No fill, status update or error removes
    an entry. *)
Theorem own_book_grows_in_step
    (MINIMUM_BID MAXIMUM_ASK : Z) (cs : list callback) : forall (s s' : AutoTrader)
    (sent : list order),
  in_step (own s) ->
  run MINIMUM_BID MAXIMUM_ASK cs s = Ok (s', sent) ->
  in_step (own s')
  /\ (length (my_ETF_ask_arr (own s')) + length (my_ETF_bid_arr (own s')))%nat
     = (length (my_ETF_ask_arr (own s)) + length (my_ETF_bid_arr (own s))
        + count_inserts sent)%nat.
Proof.
  induction cs as [|c cs IH]; intros s s' sent Hstep Hrun.
  - injection Hrun as <- <-. split; [exact Hstep | cbn; lia].
  - cbn [run] in Hrun.
    destruct (handle MINIMUM_BID MAXIMUM_ASK c s) as [[s1 sent1]|why] eqn:Hc;
      cbn [res_bind] in Hrun; [|discriminate].
    destruct (run MINIMUM_BID MAXIMUM_ASK cs s1) as [[s2 sent2]|why] eqn:Hrest;
      cbn [res_bind] in Hrun; [|discriminate].
    injection Hrun as <- <-.
    destruct (handle_in_step _ _ _ _ _ _ Hstep Hc) as (Hstep1 & Hcount1).
    destruct (IH _ _ _ Hstep1 Hrest) as (Hstep2 & Hcount2).
    split; [exact Hstep2|]. rewrite count_inserts_app. lia.
Qed.

Lemma own_book_grows_in_step_witness :
  in_step (own (state_after session one_sample_seen))
  /\ (length (my_ETF_ask_arr (own (state_after session one_sample_seen)))
      + length (my_ETF_bid_arr (own (state_after session one_sample_seen))))%nat
     = (length (my_ETF_ask_arr (own one_sample_seen))
        + length (my_ETF_bid_arr (own one_sample_seen))
        + count_inserts [ SendInsertOrder 0 SELL 199 10 GOOD_FOR_DAY;
                          SendHedgeOrder 0 BUY 201 0 (Some GOOD_FOR_DAY) ])%nat.
Proof.
  apply (own_book_grows_in_step 1 2147483647 session one_sample_seen).
  - repeat split.
  - vm_compute. reflexivity.
Defined.

(** ** The evaluation on particular histories *)

Lemma fold_sum_no_wrap xs : forall acc,
  0 <= acc -> Forall (fun x => 0 <= x) xs -> acc + spec_sum xs < 2 ^ 64 ->
  fold_left (fun a x => UInt64.add a x) xs acc = acc + spec_sum xs.
Proof.
  induction xs as [|x xs IH]; intros acc Hacc Hxs Hfit; cbn [fold_left spec_sum fold_right].
  - lia.
  - apply Forall_cons in Hxs as (Hx & Hxs).
    fold (spec_sum xs) in *.
    assert (Hrest : 0 <= spec_sum xs).
    { clear -Hxs. induction xs as [|y ys IHy]; cbn; [lia|].
      apply Forall_cons in Hxs as (Hy & Hys). specialize (IHy Hys).
      unfold spec_sum in IHy. lia. }
    cbn [spec_sum fold_right] in Hfit. fold (spec_sum xs) in Hfit.
    unfold UInt64.add at 2. rewrite wrap_small by (unfold UInt64.modulus; lia).
    rewrite IH by (try assumption; lia). lia.
Qed.

Lemma sum_entries_no_wrap xs :
  Forall (fun x => 0 <= x) xs -> spec_sum xs < 2 ^ 64 -> sum_entries xs = spec_sum xs.
Proof.
  intros Hxs Hfit. unfold sum_entries. rewrite fold_sum_no_wrap by (try assumption; lia).
  lia.
Qed.

Lemma spec_sum_bounds lo hi xs :
  Forall (fun x => lo <= x <= hi) xs ->
  lo * size xs <= spec_sum xs <= hi * size xs.
Proof.
  induction xs as [|x xs IH]; intros Hxs.
  - change (size []) with 0. cbn. lia.
  - apply Forall_cons in Hxs as (Hx & Hxs). specialize (IH Hxs).
    rewrite size_cons. cbn [spec_sum fold_right]. fold (spec_sum xs). nia.
Qed.

(** X11.  When the samples after the oldest one are not negative and their
    sum fits an [unsigned long], the mean of the evaluation is the floor of
    their arithmetic mean and lies between any two bounds of the samples. *)
Theorem mean_is_floor_of_average (oldest : Z) (entries : list Z) (lo hi : Z) :
  entries <> [] ->
  size (oldest :: entries) < 2 ^ 31 ->
  Forall (fun x => 0 <= x) entries ->
  spec_sum entries < 2 ^ 64 ->
  Forall (fun x => lo <= x <= hi) entries ->
  spread_mean (oldest :: entries) = Ok (spec_sum entries / size entries)
  /\ lo <= spec_sum entries / size entries <= hi.
Proof.
  intros Hne Hsize Hpos Hfit Hbounds.
  assert (Hn : 0 < size entries).
  { destruct entries; [congruence|]. rewrite size_cons. pose proof (size_nonneg entries). lia. }
  split.
  - unfold spread_mean, spread_mean_with, loop_entries.
    destruct (Z.leb_spec (2 ^ 31) (size (oldest :: entries))); [lia|]. cbn [res_bind tl].
    rewrite size_cons in *. unfold UInt64.sub.
    replace (size entries + 1 - 1) with (size entries) by lia.
    rewrite wrap_small by (unfold UInt64.modulus; lia).
    unfold UInt64.div. destruct (Z.eqb_spec (size entries) 0); [lia|].
    rewrite sum_entries_no_wrap by assumption. reflexivity.
  - pose proof (spec_sum_bounds lo hi entries Hbounds) as Hsum.
    split; [apply Z.div_le_lower_bound | apply Z.div_le_upper_bound]; lia.
Qed.

Lemma mean_is_floor_of_average_witness :
  spread_mean (0 :: [10; 15; 30]) = Ok (spec_sum [10; 15; 30] / size [10; 15; 30])
  /\ 10 <= spec_sum [10; 15; 30] / size [10; 15; 30] <= 30.
Proof.
  apply (mean_is_floor_of_average 0 [10; 15; 30] 10 30).
  - discriminate.
  - vm_compute. reflexivity.
  - repeat (apply Forall_cons; split; [lia|]). apply Forall_nil. exact I.
  - vm_compute. reflexivity.
  - repeat (apply Forall_cons; split; [lia|]). apply Forall_nil. exact I.
Defined.

Lemma spec_sum_repeat c n : spec_sum (repeat c n) = Z.of_nat n * c.
Proof.
  induction n as [|n IH]; [reflexivity|].
  cbn [repeat spec_sum fold_right]. fold (spec_sum (repeat c n)). rewrite IH. lia.
Qed.

Lemma sum_squares_constant c n : sum_squares c (repeat c n) 0 = Ok 0.
Proof.
  induction n as [|n IH]; [reflexivity|].
  cbn [repeat sum_squares].
  assert (Hstep : accumulate_square c 0 c = Ok 0).
  { unfold accumulate_square, UInt64.sub. rewrite Z.sub_diag. reflexivity. }
  rewrite Hstep. cbn [res_bind]. exact IH.
Qed.

(** X12.  On a flat spread (all samples after the oldest one equal to [c],
    their sum fitting an [unsigned long]) the evaluation is defined, the
    mean is [c], and the newest sample [c] is compared with [c + 1] and
    [c - 1] on [unsigned long]: the verdict is NEUTRAL, except that a flat
    spread of zero is judged FUTURE_RICH and a flat spread of [2^64 - 1]
    (the ETF one below the future) ETF_RICH. *)
Theorem flat_spread_verdict (oldest c : Z) (k : nat) :
  0 <= c ->
  Z.of_nat (S k) * c < 2 ^ 64 ->
  Z.of_nat (S k) + 1 < 2 ^ 31 ->
  spread_mean (oldest :: repeat c (S k)) = Ok c
  /\ deterMineOrderStatus (oldest :: repeat c (S k)) = Ok (classify c c 1)
  /\ (1 <= c < 2 ^ 64 - 1 -> classify c c 1 = NEUTRAL)
  /\ (c = 0 -> classify c c 1 = FUTURE_RICH)
  /\ (c = 2 ^ 64 - 1 -> classify c c 1 = ETF_RICH).
Proof.
  intros Hc Hfit Hsize.
  assert (Hlen : size (repeat c (S k)) = Z.of_nat (S k))
    by (unfold size; rewrite repeat_length; reflexivity).
  assert (Hloop : loop_entries (oldest :: repeat c (S k)) = Ok (repeat c (S k))).
  { unfold loop_entries. rewrite size_cons, Hlen.
    destruct (Z.leb_spec (2 ^ 31) (Z.of_nat (S k) + 1)); [lia | reflexivity]. }
  assert (Hdiv : UInt64.sub (size (oldest :: repeat c (S k))) 1 = Z.of_nat (S k)).
  { rewrite size_cons, Hlen. unfold UInt64.sub.
    replace (Z.of_nat (S k) + 1 - 1) with (Z.of_nat (S k)) by lia.
    apply wrap_small. unfold UInt64.modulus. lia. }
  assert (Hnz : (Z.of_nat (S k) =? 0) = false) by (apply Z.eqb_neq; lia).
  assert (Hsum : sum_entries (repeat c (S k)) = Z.of_nat (S k) * c).
  { rewrite <- spec_sum_repeat. apply sum_entries_no_wrap.
    - apply Forall_forall. intros x Hx. apply list_elem_of_In, repeat_spec in Hx. lia.
    - rewrite spec_sum_repeat. exact Hfit. }
  assert (Hmean : spread_mean (oldest :: repeat c (S k)) = Ok c).
  { unfold spread_mean, spread_mean_with. rewrite Hloop, Hdiv. cbn [res_bind].
    unfold UInt64.div. rewrite Hnz, Hsum. f_equal.
    rewrite Z.mul_comm. apply Z.div_mul. lia. }
  split; [exact Hmean|]. split.
  - unfold deterMineOrderStatus, deterMineOrderStatus_with.
    fold (spread_mean (oldest :: repeat c (S k))). rewrite Hmean. cbn [res_bind].
    unfold spread_stddev_with. rewrite Hloop, Hdiv. cbn [res_bind].
    rewrite sum_squares_constant. cbn [res_bind].
    unfold UInt64.div. rewrite Hnz. cbn [res_bind]. rewrite root_step_is_one.
    cbn [res_bind].
    assert (Hlast : UInt32.wrap (Z.of_nat (S k)) = size (oldest :: repeat c k)).
    { rewrite size_cons. unfold size. rewrite repeat_length.
      unfold UInt32.wrap, UInt32.modulus. rewrite Z.mod_small by lia. lia. }
    rewrite Hlast.
    replace (oldest :: repeat c (S k)) with ((oldest :: repeat c k) ++ [c])
      by (cbn [app]; rewrite <- repeat_cons; reflexivity).
    rewrite at_index_snoc. reflexivity.
  - unfold classify. rewrite mul_one.
    change (UInt64.wrap 1) with 1. unfold UInt64.add, UInt64.sub.
    split; [|split].
    + intros Hmid. rewrite !wrap_small by (unfold UInt64.modulus; lia).
      destruct (Z.ltb_spec (c + 1) c); [lia|]. destruct (Z.ltb_spec c (c - 1)); [lia|].
      reflexivity.
    + intros ->. reflexivity.
    + intros ->. reflexivity.
Qed.

Lemma flat_spread_verdict_witness :
  deterMineOrderStatus (7 :: repeat 0 (S 2)) = Ok (classify 0 0 1)
  /\ classify 0 0 1 = FUTURE_RICH.
Proof.
  destruct (flat_spread_verdict 7 0 2) as (_ & Hv & _ & Hzero & _);
    [lia | vm_compute; reflexivity | vm_compute; reflexivity |].
  split; [exact Hv | apply Hzero; reflexivity].
Defined.

Lemma spread_stddev_with_value n q avg sd : spread_stddev_with n q avg = Ok sd -> sd = 1.
Proof.
  intros H. destruct (spread_stddev_with_cases n q avg) as [H1|(why & Hf)]; congruence.
Qed.

(** X13.  Whenever the evaluation returns a verdict, the history holds
    between 2 and [2^31 - 1] samples and the verdict is the comparison of its
    newest sample with the mean plus one and the mean minus one: the
    deviation that widens the band is always one. *)
Theorem verdict_compares_with_mean_and_one (q : list Z) (v : verdict) :
  deterMineOrderStatus q = Ok v ->
  2 <= size q < 2 ^ 31
  /\ exists avg newest,
       spread_mean q = Ok avg
       /\ last q = Some newest
       /\ v = classify newest avg 1.
Proof.
  unfold deterMineOrderStatus, deterMineOrderStatus_with.
  fold (spread_mean q).
  destruct (spread_mean q) as [avg|why] eqn:Hmean; cbn [res_bind]; [|discriminate].
  destruct (spread_stddev_with (size q) q avg) as [sd|why] eqn:Hsd; cbn [res_bind];
    [|discriminate].
  apply spread_stddev_with_value in Hsd. subst sd.
  destruct (at_index q (UInt32.wrap (UInt64.sub (size q) 1))) as [newest|why] eqn:Hnew;
    cbn [res_bind]; [|discriminate].
  intros [= <-].
  assert (Hsmall : size q < 2 ^ 31).
  { unfold spread_mean, spread_mean_with, loop_entries in Hmean.
    destruct (Z.leb_spec (2 ^ 31) (size q)); [discriminate Hmean | assumption]. }
  assert (Hpos : 1 <= size q).
  { destruct q; [|rewrite size_cons; pose proof (size_nonneg q); lia].
    discriminate Hnew. }
  assert (Hsub : UInt64.sub (size q) 1 = size q - 1)
    by (apply wrap_small; unfold UInt64.modulus; lia).
  assert (Hnot1 : size q <> 1).
  { intros H1. unfold spread_mean, spread_mean_with, loop_entries in Hmean.
    destruct (Z.leb_spec (2 ^ 31) (size q)); [discriminate Hmean|].
    cbn [res_bind] in Hmean. rewrite Hsub, H1 in Hmean. discriminate Hmean. }
  split; [lia|]. exists avg, newest. split; [reflexivity|]. split; [|reflexivity].
  apply newest_of_last; [lia|]. unfold newest_of.
  replace (UInt32.wrap (UInt64.sub (size q) 1)) with (UInt64.sub (size q) 1) in Hnew;
    [exact Hnew|].
  rewrite Hsub. unfold UInt32.wrap, UInt32.modulus. rewrite Z.mod_small by lia. reflexivity.
Qed.

Lemma verdict_compares_with_mean_and_one_witness :
  2 <= size [5; 3; 3; 3] < 2 ^ 31
  /\ exists avg newest,
       spread_mean [5; 3; 3; 3] = Ok avg
       /\ last [5; 3; 3; 3] = Some newest
       /\ NEUTRAL = classify newest avg 1.
Proof.
  apply (verdict_compares_with_mean_and_one [5; 3; 3; 3] NEUTRAL).
  vm_compute. reflexivity.
Defined.

(** ** The headroom tests *)

(** X14.  With the ETF position a [long] and the top of [ETF_bid_arr] an
    [unsigned long], the test before a sale passes exactly when
    [ETF_Much_Greater] is set and the position less the lot lies strictly
    between minus 100 and zero; the test before a purchase exactly when
    [FTR_Much_Greater] is set and the position plus the lot lies in
    [[0, 100)].  So a position of 10 or more never passes the sale test, a
    position below minus 10 never passes the purchase test, and with a flat
    position and nothing at the top of [ETF_bid_arr] no sale is sent. *)
Theorem headroom_tests_on_signed_position (s : AutoTrader) :
  Int64.in_range (ETF_Pos (pos s)) ->
  UInt64.in_range (top (ETF_bid_arr (market s))) ->
  let P := ETF_Pos (pos s) in
  let v := lot (top (ETF_bid_arr (market s))) in
  may_sell s = ETF_Much_Greater (stats s) && ((-100 <? P - v) && (P - v <? 0))
  /\ may_buy s = FTR_Much_Greater (stats s) && ((0 <=? P + v) && (P + v <? 100))
  /\ (10 <= P -> may_sell s = false)
  /\ (P < -10 -> may_buy s = false)
  /\ (P = 0 -> top (ETF_bid_arr (market s)) = 0 -> may_sell s = false).
Proof.
  intros HP Hb P v.
  unfold Int64.in_range, Int64.min_signed, Int64.max_signed in HP.
  unfold UInt64.in_range, UInt64.modulus in Hb. fold P in HP.
  assert (Hv : 0 <= v <= 10) by (subst v; unfold lot, LOT_SIZE; lia).
  assert (Hsell : may_sell s
                  = ETF_Much_Greater (stats s) && ((-100 <? P - v) && (P - v <? 0))).
  { unfold may_sell. f_equal. fold P v.
    change (UInt64.wrap (-100)) with (2 ^ 64 - 100).
    unfold Int64.to_unsigned. rewrite sub_wrap_l. unfold UInt64.sub.
    destruct (Z.lt_ge_cases (P - v) 0) as [Hneg|Hpos].
    - rewrite wrap_negative by (unfold UInt64.modulus; lia). unfold UInt64.modulus.
      destruct (Z.ltb_spec (2 ^ 64 - 100) (P - v + 2 ^ 64)), (Z.ltb_spec (-100) (P - v)),
        (Z.ltb_spec (P - v) 0); try lia; reflexivity.
    - rewrite wrap_small by (unfold UInt64.modulus; lia).
      destruct (Z.ltb_spec (2 ^ 64 - 100) (P - v)), (Z.ltb_spec (-100) (P - v)),
        (Z.ltb_spec (P - v) 0); try lia; reflexivity. }
  assert (Hbuy : may_buy s
                 = FTR_Much_Greater (stats s) && ((0 <=? P + v) && (P + v <? 100))).
  { unfold may_buy. f_equal. fold P v.
    unfold Int64.to_unsigned. rewrite add_wrap_l. unfold UInt64.add.
    destruct (Z.lt_ge_cases (P + v) 0) as [Hneg|Hpos].
    - rewrite wrap_negative by (unfold UInt64.modulus; lia). unfold UInt64.modulus.
      destruct (Z.ltb_spec (P + v + 2 ^ 64) 100), (Z.leb_spec 0 (P + v)),
        (Z.ltb_spec (P + v) 100); try lia; reflexivity.
    - rewrite wrap_small by (unfold UInt64.modulus; lia).
      destruct (Z.ltb_spec (P + v) 100), (Z.leb_spec 0 (P + v)); try lia; reflexivity. }
  split; [exact Hsell|]. split; [exact Hbuy|]. split; [|split].
  - intros Hlong. rewrite Hsell.
    destruct (Z.ltb_spec (P - v) 0); [lia|]. rewrite andb_false_r, andb_false_r. reflexivity.
  - intros Hshort. rewrite Hbuy.
    destruct (Z.leb_spec 0 (P + v)); [lia|]. rewrite andb_false_r. reflexivity.
  - intros HP0 Htop. rewrite Hsell.
    assert (Hv0 : v = 0) by (subst v; rewrite Htop; reflexivity).
    destruct (Z.ltb_spec (P - v) 0); [lia|]. rewrite andb_false_r, andb_false_r. reflexivity.
Qed.

Lemma headroom_tests_on_signed_position_witness :
  may_sell sold_below
  = ETF_Much_Greater (stats sold_below)
    && ((-100 <? ETF_Pos (pos sold_below) - lot (top (ETF_bid_arr (market sold_below))))
        && (ETF_Pos (pos sold_below) - lot (top (ETF_bid_arr (market sold_below))) <? 0)).
Proof.
  destruct (headroom_tests_on_signed_position sold_below) as (Hsell & _).
  - vm_compute. split; discriminate.
  - vm_compute. split; [discriminate | reflexivity].
  - exact Hsell.
Defined.

(** ** The signal flags along a run *)

Lemma classify_exclusive newest avg sd :
  v_ETF_Much_Greater (classify newest avg sd) && v_FTR_Much_Greater (classify newest avg sd)
  = false.
Proof.
  unfold classify.
  destruct (_ <? newest); [reflexivity|]. destruct (newest <? _); reflexivity.
Qed.

Lemma verdict_exclusive q v :
  deterMineOrderStatus q = Ok v -> v_ETF_Much_Greater v && v_FTR_Much_Greater v = false.
Proof.
  unfold deterMineOrderStatus, deterMineOrderStatus_with.
  destruct (spread_mean_with (size q) q) as [avg|why]; cbn [res_bind]; [|discriminate].
  destruct (spread_stddev_with (size q) q avg) as [sd|why]; cbn [res_bind]; [|discriminate].
  destruct (at_index q _) as [newest|why]; cbn [res_bind]; [|discriminate].
  intros [= <-]. apply classify_exclusive.
Qed.

Lemma handle_stats MINIMUM_BID MAXIMUM_ASK c s s' sent :
  is_market_update c = false ->
  handle MINIMUM_BID MAXIMUM_ASK c s = Ok (s', sent) ->
  stats s' = stats s.
Proof.
  destruct c; cbn [is_market_update handle]; intros Hc Hrun; try discriminate Hc.
  - destruct (fill_frame _ _ _ _ _ _ _ _ Hrun) as (_ & Hs & _). exact Hs.
  - injection Hrun as <- _. unfold OrderStatusMessageHandler.
    destruct (remainingVolume =? 0); reflexivity.
  - injection Hrun as <- _. reflexivity.
  - injection Hrun as <- _. unfold ErrorMessageHandler, OrderStatusMessageHandler.
    destruct (is_tracked_error clientOrderId s); reflexivity.
  - injection Hrun as <- _. reflexivity.
Qed.

Lemma handle_exclusive MINIMUM_BID MAXIMUM_ASK c s s' sent :
  exclusive s -> handle MINIMUM_BID MAXIMUM_ASK c s = Ok (s', sent) -> exclusive s'.
Proof.
  intros Hex Hrun. destruct (is_market_update c) eqn:Hc.
  - assert (Hmarket : exists i ap av bp bv,
               on_market_update i ap av bp bv s = Ok (s', sent)).
    { destruct c; try discriminate Hc;
        exists instrument, askPrices, askVolumes, bidPrices, bidVolumes; exact Hrun. }
    destruct Hmarket as (i & ap & av & bp & bv & Hup).
    unfold on_market_update, evaluate_and_trade in Hup.
    set (s1 := store i ap bp s) in *.
    assert (Hex1 : exclusive s1) by (subst s1; destruct i; exact Hex).
    destruct (negb (ETF_midprice (market s1) =? 0) && negb (FTR_midprice (market s1) =? 0));
      [|injection Hup as <- _; exact Hex1].
    destruct (sample_and_evaluate s1) as [s2|why] eqn:Heval; cbn [res_bind] in Hup;
      [|discriminate].
    injection Hup as Hp. destruct (place_orders_frame s2) as (_ & Hs & _).
    rewrite Hp in Hs. cbn [fst] in Hs. unfold exclusive. rewrite Hs.
    destruct (sample_and_evaluate_cases _ _ Heval) as [->|(d & v & _ & Hv & Hst & _)];
      [exact Hex1|].
    rewrite Hst. cbn. exact (verdict_exclusive _ _ Hv).
  - unfold exclusive. rewrite (handle_stats _ _ _ _ _ _ Hc Hrun). exact Hex.
Qed.

(** X15.  The two signal flags are never both set: a run that starts with
    at most one of them set ends with at most one set, whatever the
    callbacks, since only the evaluation assigns them and it assigns them
    from one chain of comparisons. *)
Theorem signal_flags_stay_exclusive
    (MINIMUM_BID MAXIMUM_ASK : Z) (cs : list callback) : forall (s s' : AutoTrader)
    (sent : list order),
  exclusive s ->
  run MINIMUM_BID MAXIMUM_ASK cs s = Ok (s', sent) ->
  exclusive s'.
Proof.
  induction cs as [|c cs IH]; intros s s' sent Hex Hrun.
  - injection Hrun as <- _. exact Hex.
  - cbn [run] in Hrun.
    destruct (handle MINIMUM_BID MAXIMUM_ASK c s) as [[s1 sent1]|why] eqn:Hc;
      cbn [res_bind] in Hrun; [|discriminate].
    destruct (run MINIMUM_BID MAXIMUM_ASK cs s1) as [[s2 sent2]|why] eqn:Hrest;
      cbn [res_bind] in Hrun; [|discriminate].
    injection Hrun as <- _.
    exact (IH _ _ _ (handle_exclusive _ _ _ _ _ _ Hex Hc) Hrest).
Qed.

Lemma signal_flags_stay_exclusive_witness :
  exclusive (state_after session one_sample_seen).
Proof.
  apply (signal_flags_stay_exclusive 1 2147483647 session one_sample_seen
           (state_after session one_sample_seen)
           [ SendInsertOrder 0 SELL 199 10 GOOD_FOR_DAY;
             SendHedgeOrder 0 BUY 201 0 (Some GOOD_FOR_DAY) ]).
  - reflexivity.
  - vm_compute. reflexivity.
Defined.

(** ** From start-up *)

Lemma place_orders_unsampled s :
  ETF_Much_Greater (stats s) = false -> FTR_Much_Greater (stats s) = false ->
  place_orders s = (s, []).
Proof.
  intros He Hf. unfold place_orders, may_sell, may_buy. rewrite He, Hf. reflexivity.
Qed.

Lemma sample_and_evaluate_unsampled s s' :
  DIFF_recent_mp_prices (stats s) = [] -> sample_and_evaluate s = Ok s' -> s' = s.
Proof.
  intros Hd Heval.
  destruct (sample_and_evaluate_cases _ _ Heval) as [->|(d & v & _ & Hv & _)];
    [reflexivity|].
  rewrite Hd in Hv. cbn [app] in Hv. rewrite one_entry_divides_by_zero in Hv.
  discriminate Hv.
Qed.

Lemma handle_unsampled MINIMUM_BID MAXIMUM_ASK c s s' sent :
  unsampled s -> untracked s ->
  handle MINIMUM_BID MAXIMUM_ASK c s = Ok (s', sent) ->
  unsampled s' /\ untracked s' /\ sent = [] /\ own s' = own s.
Proof.
  intros (Hd & He & Hf) Hun Hrun.
  destruct (is_market_update c) eqn:Hc.
  - assert (Hmarket : exists i ap av bp bv,
               on_market_update i ap av bp bv s = Ok (s', sent)).
    { destruct c; try discriminate Hc;
        exists instrument, askPrices, askVolumes, bidPrices, bidVolumes; exact Hrun. }
    destruct Hmarket as (i & ap & av & bp & bv & Hup).
    unfold on_market_update, evaluate_and_trade in Hup.
    set (s1 := store i ap bp s) in *.
    assert (Hs1 : unsampled s1 /\ untracked s1 /\ own s1 = own s)
      by (subst s1; destruct i; repeat split; assumption || apply Hun).
    destruct Hs1 as ((Hd1 & He1 & Hf1) & Hun1 & Ho1).
    destruct (negb (ETF_midprice (market s1) =? 0) && negb (FTR_midprice (market s1) =? 0)).
    + destruct (sample_and_evaluate s1) as [s2|why] eqn:Heval; cbn [res_bind] in Hup;
        [|discriminate].
      apply (sample_and_evaluate_unsampled _ _ Hd1) in Heval. subst s2.
      rewrite (place_orders_unsampled _ He1 Hf1) in Hup. injection Hup as <- <-.
      repeat split; assumption || apply Hun1.
    + injection Hup as <- <-. repeat split; assumption || apply Hun1.
  - assert (Hst : stats s' = stats s) by exact (handle_stats _ _ _ _ _ _ Hc Hrun).
    assert (Hus : unsampled s') by (unfold unsampled; rewrite Hst; repeat split; assumption).
    destruct c; cbn [handle] in Hrun; try discriminate Hc.
    + rewrite (fill_untracked _ _ _ _ _ _ Hun) in Hrun. injection Hrun as <- <-.
      repeat split; assumption || apply Hun.
    + injection Hrun as <- <-.
      split; [exact Hus|]. split; [apply status_keeps_untracked, Hun|].
      split; [reflexivity|]. unfold OrderStatusMessageHandler.
      destruct (remainingVolume =? 0); reflexivity.
    + injection Hrun as <- <-. repeat split; assumption || apply Hun.
    + injection Hrun as <- <-.
      split; [exact Hus|]. split; [apply error_keeps_untracked, Hun|].
      split; [reflexivity|]. unfold ErrorMessageHandler, OrderStatusMessageHandler.
      destruct (is_tracked_error clientOrderId s); reflexivity.
    + injection Hrun as <- <-. repeat split; assumption || apply Hun.
Qed.

(** X16.  A trader that starts with an empty spread history, no signal and
    no tracked order never trades: every run from such a state either ends
    in a fault or completes without having sent a single order, with the
    spread history still empty, the flags still clear and the own book
    untouched.  (The first spread sample would be evaluated on a history of
    one, which divides by zero.) *)
Theorem startup_never_trades
    (MINIMUM_BID MAXIMUM_ASK : Z) (cs : list callback) : forall (s s' : AutoTrader)
    (sent : list order),
  unsampled s -> untracked s ->
  run MINIMUM_BID MAXIMUM_ASK cs s = Ok (s', sent) ->
  sent = [] /\ unsampled s' /\ untracked s' /\ own s' = own s.
Proof.
  induction cs as [|c cs IH]; intros s s' sent Hus Hun Hrun.
  - injection Hrun as <- <-. repeat split; assumption || apply Hus || apply Hun.
  - cbn [run] in Hrun.
    destruct (handle MINIMUM_BID MAXIMUM_ASK c s) as [[s1 sent1]|why] eqn:Hc;
      cbn [res_bind] in Hrun; [|discriminate].
    destruct (run MINIMUM_BID MAXIMUM_ASK cs s1) as [[s2 sent2]|why] eqn:Hrest;
      cbn [res_bind] in Hrun; [|discriminate].
    injection Hrun as <- <-.
    destruct (handle_unsampled _ _ _ _ _ _ Hus Hun Hc) as (Hus1 & Hun1 & -> & Ho1).
    destruct (IH _ _ _ Hus1 Hun1 Hrest) as (-> & Hus2 & Hun2 & Ho2).
    split; [reflexivity|]. split; [exact Hus2|]. split; [exact Hun2 | congruence].
Qed.

Lemma startup_never_trades_witness :
  exists s',
    venue_run (map etf_quote (seqZ 1 5) ++ [OrderFilledMessage 0 199 10; ErrorMessage 3]) idle
    = Ok (s', [])
    /\ unsampled s'.
Proof.
  assert (Hrun : run 1 2147483647
                   (map etf_quote (seqZ 1 5) ++ [OrderFilledMessage 0 199 10; ErrorMessage 3])
                   idle
                 = Ok (state_after (map etf_quote (seqZ 1 5)
                                    ++ [OrderFilledMessage 0 199 10; ErrorMessage 3]) idle,
                       []))
    by (vm_compute; reflexivity).
  destruct (startup_never_trades 1 2147483647 _ idle _ _
              ltac:(repeat split) ltac:(split; reflexivity) Hrun) as (_ & Hus & _).
  eexists. split; [exact Hrun | exact Hus].
Defined.

(** X17.  The first spread sample of a session is fatal: on a coherent
    state with an empty spread history, a market update after which both
    midprices are nonzero and the two windows have the same size appends
    the sample and then divides by zero in the evaluation. *)
Theorem first_spread_sample_faults i ap av bp bv (s : AutoTrader) :
  coherent s ->
  DIFF_recent_mp_prices (stats s) = [] ->
  ETF_midprice (market (store i ap bp s)) <> 0 ->
  FTR_midprice (market (store i ap bp s)) <> 0 ->
  size (ETF_recent_mp_prices (stats (store i ap bp s)))
  = size (FTR_recent_mp_prices (stats (store i ap bp s))) ->
  on_market_update i ap av bp bv s = Fault DivisionByZero.
Proof.
  intros Hco Hd He Hf Hsizes.
  pose proof (coherent_store i ap bp s Hco) as Hco1.
  assert (Hd1 : DIFF_recent_mp_prices (stats (store i ap bp s)) = [])
    by (destruct i; exact Hd).
  assert (Hpos : 0 < size (ETF_recent_mp_prices (stats (store i ap bp s)))).
  { destruct Hco as (Hwe & Hwf & _). exact (store_window_nonempty i ap bp s Hwe Hwf Hsizes). }
  unfold on_market_update, evaluate_and_trade.
  apply Z.eqb_neq in He, Hf. rewrite He, Hf. cbn [negb andb].
  unfold sample_and_evaluate. rewrite Hsizes, Z.eqb_refl.
  rewrite (spread_sample_defined _ Hco1 Hsizes Hpos). cbn [res_bind].
  rewrite Hd1. cbn [app]. rewrite one_entry_divides_by_zero. reflexivity.
Qed.

Lemma first_spread_sample_faults_witness :
  on_market_update FUTURE (lv 201) (lv 5) (lv 199) (lv 3) (state_after [etf_book_level] idle)
  = Fault DivisionByZero.
Proof.
  apply first_spread_sample_faults.
  - split; [vm_compute; discriminate|]. split; [vm_compute; discriminate|].
    split; [intros x H; vm_compute in H; injection H as <-; reflexivity|].
    split; [intros x H; vm_compute in H; discriminate|].
    split; (split; [vm_compute; discriminate | vm_compute; reflexivity]).
  - reflexivity.
  - vm_compute. discriminate.
  - vm_compute. discriminate.
  - vm_compute. reflexivity.
Defined.

(** X18.  Coherence is kept by every callback: along any completed run
    from a coherent state (start-up is one) neither price window holds more
    than 32 midprices, the newest entry of a window that is not empty is the
    midprice of its instrument's latest snapshot, and both midprices are
    below [2^63]. *)
Theorem runs_keep_windows_coherent
    (MINIMUM_BID MAXIMUM_ASK : Z) (cs : list callback) (s s' : AutoTrader)
    (sent : list order) :
  coherent s ->
  run MINIMUM_BID MAXIMUM_ASK cs s = Ok (s', sent) ->
  coherent s'
  /\ size (ETF_recent_mp_prices (stats s')) <= 32
  /\ size (FTR_recent_mp_prices (stats s')) <= 32.
Proof.
  intros Hco Hrun. pose proof (coherent_run _ _ _ _ _ _ Hco Hrun) as Hco'.
  split; [exact Hco'|]. destruct Hco' as (He & Hf & _). split; assumption.
Qed.

Lemma runs_keep_windows_coherent_witness :
  coherent (state_after (map etf_quote (seqZ 1 40)) idle)
  /\ size (ETF_recent_mp_prices (stats (state_after (map etf_quote (seqZ 1 40)) idle))) <= 32.
Proof.
  assert (Hrun : run 1 2147483647 (map etf_quote (seqZ 1 40)) idle
                 = Ok (state_after (map etf_quote (seqZ 1 40)) idle, []))
    by (vm_compute; reflexivity).
  assert (Hidle : coherent idle).
  { split; [vm_compute; discriminate|]. split; [vm_compute; discriminate|].
    split; [intros x H; discriminate|]. split; [intros x H; discriminate|].
    split; (split; [vm_compute; discriminate | vm_compute; reflexivity]). }
  destruct (runs_keep_windows_coherent 1 2147483647 _ idle _ _ Hidle Hrun)
    as (Hco & He & _).
  split; assumption.
Defined.

(** ** Fills that arrive late *)

(** X19.  A fill that arrives after its order was closed is dropped: once a
    status update with nothing remaining has been handled for an identifier,
    or an error for it if it is not zero, a fill for that identifier changes
    neither [mPosition] nor anything else and sends no hedge. *)
Theorem fill_after_close_is_dropped
    (MINIMUM_BID MAXIMUM_ASK id price volume fillVolume fees : Z) (s : AutoTrader) :
  OrderFilledMessageHandler MINIMUM_BID MAXIMUM_ASK id price volume
    (OrderStatusMessageHandler id fillVolume 0 fees s)
  = Ok (OrderStatusMessageHandler id fillVolume 0 fees s, [])
  /\ (id <> 0 ->
      OrderFilledMessageHandler MINIMUM_BID MAXIMUM_ASK id price volume
        (ErrorMessageHandler id s)
      = Ok (ErrorMessageHandler id s, [])).
Proof.
  assert (Hclosed : forall f c,
             OrderFilledMessageHandler MINIMUM_BID MAXIMUM_ASK id price volume
               (OrderStatusMessageHandler id f 0 c s)
             = Ok (OrderStatusMessageHandler id f 0 c s, [])).
  { intros f c. destruct (status_closed id f c s) as (Ha & Hb & _).
    unfold OrderFilledMessageHandler.
    rewrite (bool_decide_eq_false_2 _ Ha), (bool_decide_eq_false_2 _ Hb). reflexivity. }
  split; [apply Hclosed|].
  intros Hnz. unfold ErrorMessageHandler.
  destruct (is_tracked_error id s) eqn:Htracked; [apply Hclosed|].
  unfold is_tracked_error in Htracked.
  apply Z.eqb_neq in Hnz. rewrite Hnz in Htracked. cbn [negb andb] in Htracked.
  apply orb_false_iff in Htracked as (Ha & Hb).
  unfold OrderFilledMessageHandler. rewrite Ha, Hb. reflexivity.
Qed.

Lemma fill_after_close_is_dropped_witness :
  OrderFilledMessageHandler 1 2147483647 5 199 10 (ErrorMessageHandler 5 tracking_two)
  = Ok (ErrorMessageHandler 5 tracking_two, []).
Proof.
  destruct (fill_after_close_is_dropped 1 2147483647 5 199 10 0 0 tracking_two) as (_ & H).
  apply H. discriminate.
Defined.


(** X20.  The test in front of a purchase and the purchase itself read
    different entries: the order is priced at the best ask and sized from
    the first entry of [ETF_ask_arr], while the test adds the lot of the
    first entry of [ETF_bid_arr] to the ETF position.  What the test grants
    is that sum below the limit; the position plus the order's volume is
    only known to be below the limit plus a lot. *)
Theorem purchase_is_tested_on_the_bid_entry i ap av bp bv s s' sent id price volume lifespan :
  Int64.in_range (ETF_Pos (pos s)) ->
  books_in_range s ->
  UInt64.in_range (top ap) /\ UInt64.in_range (top bp) ->
  on_market_update i ap av bp bv s = Ok (s', sent) ->
  In (SendInsertOrder id BUY price volume lifespan) sent ->
  price = ETF_bestAsk (market s')
  /\ volume = lot (top (ETF_ask_arr (market s')))
  /\ 0 <= ETF_Pos (pos s) + lot (top (ETF_bid_arr (market s'))) < POSITION_LIMIT
  /\ ETF_Pos (pos s) + volume < POSITION_LIMIT + LOT_SIZE.
Proof.
  intros HP Hbooks Hin Hrun Ho.
  pose proof (store_keeps_books i ap bp s Hbooks Hin) as Hbooks1.
  change (books_in_range (store i ap bp s)) in Hbooks1.
  unfold on_market_update in Hrun.
  assert (Hp1 : pos (store i ap bp s) = pos s) by (destruct i; reflexivity).
  destruct (evaluate_and_trade_frame _ _ _ Hrun) as (Hm & Hp & Ht & Hsent).
  destruct Hsent as [->|(s2 & Hm2 & Hp2 & ->)]; [destruct Ho|].
  apply place_orders_insert in Ho. destruct Ho as (_ & Hbuy & -> & ->).
  rewrite Hm, <- Hm2.
  destruct Hbooks1 as (Ha & Hb & _). rewrite <- Hm2 in Ha, Hb.
  assert (HP2 : Int64.in_range (ETF_Pos (pos s2))) by (rewrite Hp2, Hp1; exact HP).
  pose proof (may_buy_headroom s2 HP2 Hb Hbuy) as Hroom.
  rewrite Hp2, Hp1 in Hroom.
  pose proof (lot_range _ Ha) as Hva. pose proof (lot_range _ Hb) as Hvb.
  split; [reflexivity|]. split; [reflexivity|]. split; [exact Hroom|].
  unfold POSITION_LIMIT, LOT_SIZE in *. lia.
Qed.

Lemma purchase_is_tested_on_the_bid_entry_witness :
  0 <= ETF_Pos (pos long_95) + lot 4 < POSITION_LIMIT
  /\ In (SendInsertOrder 0 BUY 10 (lot 10) GOOD_FOR_DAY)
        (orders_after [etf_four_to_ten] long_95)
  /\ POSITION_LIMIT
     < position_if_filled (pos long_95) (SendInsertOrder 0 BUY 10 (lot 10) GOOD_FOR_DAY).
Proof.
  assert (HP : Int64.in_range (ETF_Pos (pos long_95)))
    by (split; vm_compute; discriminate).
  assert (Hbooks : books_in_range long_95)
    by (repeat split; vm_compute; discriminate || reflexivity).
  assert (Hin : UInt64.in_range (top (lv 10)) /\ UInt64.in_range (top (lv 4)))
    by (repeat split; vm_compute; discriminate || reflexivity).
  assert (Hrun : on_market_update ETF (lv 10) (lv 1) (lv 4) (lv 1) long_95
                 = Ok (state_after [etf_four_to_ten] long_95,
                       orders_after [etf_four_to_ten] long_95))
    by (vm_compute; reflexivity).
  assert (Ho : In (SendInsertOrder 0 BUY 10 (lot 10) GOOD_FOR_DAY)
                 (orders_after [etf_four_to_ten] long_95))
    by (vm_compute; left; reflexivity).
  destruct (purchase_is_tested_on_the_bid_entry ETF (lv 10) (lv 1) (lv 4) (lv 1)
              long_95 _ _ 0 10 (lot 10) GOOD_FOR_DAY HP Hbooks Hin Hrun Ho)
    as (_ & _ & Hroom & _).
  split; [exact Hroom|]. split; [exact Ho|]. vm_compute. reflexivity.
Defined.
